(** * Payoff calculation engine of Option_Strategy

    Shallow embedding of [backend/app/services/payoff_calculator.py]
    ([PayoffCalculatorService]) and of the endpoint of
    [backend/app/routers/payoff.py], and verification of their specification.

    Number model.  Python's [float] is the IEEE-754 binary64 type [float] of
    the standard library: [+], [-], [*], [/], [<] and [<=] are the processor's
    operations, with their rounding, signed zeros, infinities and [nan].
    Equality of floats in a statement is identity of the value ([0] and [-0]
    differ); Python's [==] is [=?].  Python's [int] is [Z].

    Strings.  A [str] is the list of its code points, each below 256.

    Dictionaries ([Dict[str, Any]]) are [gmap string pyval]; raised
    exceptions are the [Raise] results of the error monad [result]. *)

From Stdlib Require Import QArith Qround Qabs Qpower Lqa Lia ZArith Ascii String List Floats.
From stdpp Require Import base option list strings gmap fin_maps.

Open Scope float_scope.

(** ** Exceptions and the error monad *)

(** The exceptions the service raises, each with its message. *)
Inductive exn : Type :=
| ValueError (msg : string)
| OverflowError (msg : string)
| ZeroDivisionError (msg : string).

Inductive result (A : Type) : Type :=
| Ok (a : A)
| Raise (e : exn).
Arguments Ok {A} a.
Arguments Raise {A} e.

Definition bind {A B : Type} (m : result A) (k : A -> result B) : result B :=
  match m with
  | Ok a => k a
  | Raise e => Raise e
  end.

Notation "'let*' x ':=' m 'in' k" := (bind m (fun x => k))
  (at level 10, x name, m at level 100, k at level 200).

(** [for x in xs: ...] with a body that may raise and an accumulator:
    the first exception stops the loop. *)
Fixpoint foldM {A B : Type} (f : B -> A -> result B) (xs : list A) (acc : B)
  : result B :=
  match xs with
  | [] => Ok acc
  | x :: xs' => let* acc' := f acc x in foldM f xs' acc'
  end.

(** A loop, or a comprehension, that yields one element per iteration. *)
Fixpoint forM {A B : Type} (f : A -> result B) (xs : list A) : result (list B) :=
  match xs with
  | [] => Ok []
  | x :: xs' => let* y := f x in let* ys := forM f xs' in Ok (y :: ys)
  end.

(** ** Conversions to binary64 *)

(** The binary64 closest to the integer [n], ties to even. *)
Definition float_of_Z (n : Z) : float :=
  SF2Prim (binary_normalize prec emax n 0 false).

(** The binary64 closest to the fraction [n/d] with the sign [neg], ties to
    even: the division of the standard library's specification, which takes
    mantissas of any size. *)
Definition float_of_ratio (neg : bool) (n d : positive) : float :=
  SF2Prim (SFdiv prec emax (S754_finite neg n 0) (S754_finite false d 0)).

Definition signed_zero (neg : bool) : float := if neg then neg_zero else zero.

(** The first magnitude that rounds to 2^1024, which is no binary64. *)
Definition int_float_bound : Z := Eval vm_compute in (2 ^ 1024 - 2 ^ 970)%Z.

(** [float(n)] of an int, also where an int meets a float in [*] and [/]. *)
Definition float_of_int (n : Z) : result float :=
  if (Z.abs n <? int_float_bound)%Z then Ok (float_of_Z n)
  else Raise (OverflowError "int too large to convert to float").

(** ** Python built-ins used by the service *)

(** [range(n)] for an [int] n: [0, 1, ..., n-1], empty when [n <= 0]. *)
Definition range (n : Z) : list Z := map Z.of_nat (seq 0 (Z.to_nat n)).

(** [x / n] of a float by an int: [ZeroDivisionError] when [n] is 0. *)
Definition py_div (x : float) (n : Z) : result float :=
  if (n =? 0)%Z then Raise (ZeroDivisionError "float division by zero")
  else let* d := float_of_int n in Ok (x / d).

(** [max(0, x)]: [x] when it is greater than 0, else the int 0, which the
    arithmetic around it turns into the float 0. *)
Definition max0 (x : float) : float := if 0 <? x then x else 0.

(** [round(x, 2)]: the exact value of [x] is rounded to the closest multiple
    of 1/100, ties to the even one, and the binary64 closest to that decimal
    is returned; a zero keeps its sign, and [inf] and [nan] are returned as
    they are. *)
Definition round_half_even (y : Q) : Z :=
  let f := Qfloor y in
  match Qcompare (y - inject_Z f) (1 # 2) with
  | Lt => f
  | Gt => (f + 1)%Z
  | Eq => if Z.even f then f else (f + 1)%Z
  end.

(** The exact value of a finite binary64 with mantissa [m] and exponent [e]. *)
Definition mantissa_value (m : positive) (e : Z) : Q :=
  (inject_Z (Zpos m) * Qpower 2 e)%Q.

Definition round2 (x : float) : float :=
  match Prim2SF x with
  | S754_finite s m e =>
      match round_half_even (mantissa_value m e * 100)%Q with
      | Zpos k => float_of_ratio s k 100
      | _ => signed_zero s
      end
  | _ => x
  end.

(** ** calculate_price_range *)

Definition calculate_price_range
  (underlying_price price_range_percent : float) (num_points : Z)
  : result (list float) :=
  let min_price := underlying_price * (1 - price_range_percent / 100) in
  let max_price := underlying_price * (1 + price_range_percent / 100) in
  let* step := py_div (max_price - min_price) (num_points - 1) in
  forM (fun i => let* i' := float_of_int i in Ok (min_price + step * i'))
    (range num_points).

(** The default value of the parameter [num_points]. *)
Definition default_num_points : Z := 50.

(** ** Python values and [float()] *)

(** The values a parameter or leg dictionary holds: an int, a float or a
    string (the numeric-or-string scalars of the interface; JSON null,
    booleans and containers are not modelled). *)
Inductive pyval : Type :=
| PInt (n : Z)
| PFloat (x : float)
| PStr (s : string).

Module FloatLiteral.
(** The grammar of [float(str)]: white space around an optional sign
    followed by a decimal number, with an optional fraction and exponent, or
    by [inf], [infinity] or [nan] in any case; digits may be separated by
    one underscore. *)

(** Tab to carriage return, space, and the two spaces above 127. *)
Definition is_space (c : ascii) : bool :=
  let n := nat_of_ascii c in
  ((9 <=? n)%nat && (n <=? 13)%nat) || (n =? 32)%nat || (n =? 133)%nat || (n =? 160)%nat.

Definition digit_of (c : ascii) : option Z :=
  let n := nat_of_ascii c in
  if ((48 <=? n)%nat && (n <=? 57)%nat) then Some (Z.of_nat (n - 48)) else None.

Definition is_underscore (c : ascii) : bool := (nat_of_ascii c =? 95)%nat.

(** After a first digit: [(["_"] digit)*]. Yields the number read so far,
    how many digits it has and the unread rest. *)
Fixpoint digits_rest (acc : Z) (cnt : nat) (l : list ascii) : Z * nat * list ascii :=
  match l with
  | c :: l' =>
      match digit_of c with
      | Some d => digits_rest (acc * 10 + d)%Z (S cnt) l'
      | None =>
          if is_underscore c then
            match l' with
            | c' :: l'' =>
                match digit_of c' with
                | Some d => digits_rest (acc * 10 + d)%Z (S cnt) l''
                | None => (acc, cnt, l)
                end
            | [] => (acc, cnt, l)
            end
          else (acc, cnt, l)
      end
  | [] => (acc, cnt, l)
  end.

Definition digitpart (l : list ascii) : option (Z * nat * list ascii) :=
  match l with
  | c :: l' =>
      match digit_of c with
      | Some d => Some (digits_rest d 1 l')
      | None => None
      end
  | [] => None
  end.

Definition is_dot (c : ascii) : bool := (nat_of_ascii c =? 46)%nat.
Definition is_plus (c : ascii) : bool := (nat_of_ascii c =? 43)%nat.
Definition is_minus (c : ascii) : bool := (nat_of_ascii c =? 45)%nat.
Definition is_e (c : ascii) : bool :=
  (nat_of_ascii c =? 101)%nat || (nat_of_ascii c =? 69)%nat.

Definition pow10 (n : nat) : Z := (10 ^ Z.of_nat n)%Z.

(** [number ::= [digitpart] "." digitpart | digitpart ["."]]: the digits
    read as one integer, and how many of them follow the point. *)
Definition number (l : list ascii) : option (Z * nat * list ascii) :=
  match digitpart l with
  | Some (ip, _, rest) =>
      match rest with
      | c :: rest' =>
          if is_dot c then
            match digitpart rest' with
            | Some (fp, n, rest'') => Some ((ip * pow10 n + fp)%Z, n, rest'')
            | None => Some (ip, 0%nat, rest')
            end
          else Some (ip, 0%nat, rest)
      | [] => Some (ip, 0%nat, rest)
      end
  | None =>
      match l with
      | c :: rest' =>
          if is_dot c then
            match digitpart rest' with
            | Some (fp, n, rest'') => Some (fp, n, rest'')
            | None => None
            end
          else None
      | [] => None
      end
  end.

(** [[sign]]: the sign read and the unread rest. *)
Definition sign (l : list ascii) : bool * list ascii :=
  match l with
  | c :: l' => if is_minus c then (true, l') else if is_plus c then (false, l') else (false, l)
  | [] => (false, l)
  end.

(** [exponent ::= ("e" | "E") [sign] digitpart], when one is there. *)
Definition exponent (l : list ascii) : option (Z * list ascii) :=
  match l with
  | c :: l' =>
      if is_e c then
        let '(neg, l'') := sign l' in
        match digitpart l'' with
        | Some (e, _, rest) => Some (if neg then (- e)%Z else e, rest)
        | None => None
        end
      else Some (0%Z, l)
  | [] => Some (0%Z, l)
  end.

Definition lower (c : ascii) : ascii :=
  let n := nat_of_ascii c in
  if ((65 <=? n)%nat && (n <=? 90)%nat) then ascii_of_nat (n + 32) else c.

(** The lower-case word [w] at the head of [l], in any case. *)
Fixpoint keyword (w l : list ascii) : option (list ascii) :=
  match w, l with
  | [], _ => Some l
  | a :: w', c :: l' => if Ascii.eqb a (lower c) then keyword w' l' else None
  | _ :: _, [] => None
  end.

(** [inf], [infinity] or [nan]. *)
Definition inf_or_nan (l : list ascii) : option (float * list ascii) :=
  match keyword (list_ascii_of_string "inf") l with
  | Some rest =>
      match keyword (list_ascii_of_string "inity") rest with
      | Some rest' => Some (infinity, rest')
      | None => Some (infinity, rest)
      end
  | None =>
      match keyword (list_ascii_of_string "nan") l with
      | Some rest => Some (nan, rest)
      | None => None
      end
  end.

Fixpoint lstrip (l : list ascii) : list ascii :=
  match l with
  | c :: l' => if is_space c then lstrip l' else l
  | [] => []
  end.

Definition strip (l : list ascii) : list ascii := rev (lstrip (rev (lstrip l))).

(** The binary64 closest to [m * 10^e] with the sign [neg], for [m >= 0]:
    an infinity above the largest binary64, a zero below half the smallest.
    A number with [b] bits is below [10^b], so beyond the exponents tested
    the outcome is known without the power of ten. *)
Definition decimal_float (neg : bool) (m e : Z) : float :=
  match m with
  | Zpos p =>
      if (310 <? e)%Z then (if neg then neg_infinity else infinity)
      else if (e + Z.log2 m + 1 <? -330)%Z then signed_zero neg
      else if (0 <=? e)%Z then float_of_ratio neg (p * Z.to_pos (10 ^ e))%positive 1
      else float_of_ratio neg p (Z.to_pos (10 ^ (- e)))
  | _ => signed_zero neg
  end.

Definition parse (s : string) : option float :=
  let '(neg, l) := sign (strip (list_ascii_of_string s)) in
  match number l with
  | Some (m, n, rest) =>
      match exponent rest with
      | Some (e, []) => Some (decimal_float neg m (e - Z.of_nat n))
      | _ => None
      end
  | None =>
      match inf_or_nan l with
      | Some (x, []) => Some (if neg then - x else x)
      | _ => None
      end
  end.
End FloatLiteral.

Module Repr.
(** [repr(s)] of a string, as the message of [float()]'s exception shows it. *)

Definition squote : ascii := ascii_of_nat 39.
Definition dquote : ascii := ascii_of_nat 34.
Definition backslash : ascii := ascii_of_nat 92.

Definition has (c : ascii) (l : list ascii) : bool := existsb (Ascii.eqb c) l.

(** Single quotes, unless the string has a single and no double quote. *)
Definition quote_of (l : list ascii) : ascii :=
  if has squote l && negb (has dquote l) then dquote else squote.

Definition hex_digit (n : nat) : ascii :=
  if (n <? 10)%nat then ascii_of_nat (48 + n) else ascii_of_nat (87 + n).

(** The code points below 256 that are not printable. *)
Definition unprintable (n : nat) : bool :=
  (n <? 32)%nat || ((127 <=? n)%nat && (n <=? 160)%nat) || (n =? 173)%nat.

Definition escape (q c : ascii) : list ascii :=
  let n := nat_of_ascii c in
  if Ascii.eqb c backslash then [backslash; backslash]
  else if Ascii.eqb c q then [backslash; q]
  else if (n =? 9)%nat then [backslash; ascii_of_nat 116]
  else if (n =? 10)%nat then [backslash; ascii_of_nat 110]
  else if (n =? 13)%nat then [backslash; ascii_of_nat 114]
  else if unprintable n then
    [backslash; ascii_of_nat 120; hex_digit (n / 16); hex_digit (n mod 16)]
  else [c].

Definition repr (s : string) : string :=
  let l := list_ascii_of_string s in
  let q := quote_of l in
  string_of_list_ascii (q :: flat_map (escape q) l ++ [q]).
End Repr.

(** [float(v)]: a float is returned as it is, an int is converted and a
    string is parsed; a string that is no float literal raises [ValueError]. *)
Definition py_float (v : pyval) : result float :=
  match v with
  | PInt n => float_of_int n
  | PFloat x => Ok x
  | PStr s =>
      match FloatLiteral.parse s with
      | Some x => Ok x
      | None =>
          Raise (ValueError ("could not convert string to float: " +:+ Repr.repr s))
      end
  end.

(** [d.get(key, default)]. *)
Definition get_default (d : gmap string pyval) (key : string) (dflt : pyval) : pyval :=
  default dflt (d !! key).

(** [d.get(key) == s] for a string literal [s]. *)
Definition get_is (d : gmap string pyval) (key s : string) : bool :=
  match d !! key with
  | Some (PStr t) => String.eqb t s
  | _ => false
  end.

(** [float(parameters.get(key, dflt))]. *)
Definition float_param (parameters : gmap string pyval) (key : string) (dflt : pyval)
  : result float :=
  py_float (get_default parameters key dflt).

(** ** PayoffDataPoint *)

(** Modelled from the spec: the class [PayoffDataPoint] of [schemas/strategy.py]
    is not among the sources; the spec's PricePoint is the pair of floats
    [{price, pnl}] built by keyword at each grid point. *)
Record PayoffDataPoint : Type := mkPoint { price : float; pnl : float }.

(** The point appended at one grid price, given the loop body's [total_pnl]. *)
Definition data_point (total_pnl : float -> float) (p : float) : PayoffDataPoint :=
  {| price := round2 p; pnl := round2 (total_pnl p) |}.

(** ** The six fixed strategies *)

Section FixedStrategies.
Variable parameters : gmap string pyval.
Variable underlying_price price_range_percent : float.

Let param := float_param parameters.
Let price_points :=
  calculate_price_range underlying_price price_range_percent default_num_points.

(** [total_pnl] of the loop body of [calculate_covered_call]. *)
Definition covered_call_pnl
  (futures_price call_strike premium futures_lot_size call_lot_size p : float) : float :=
  let futures_pnl := (p - futures_price) * futures_lot_size in
  let call_pnl :=
    if p <=? call_strike then premium * call_lot_size
    else (premium - (p - call_strike)) * call_lot_size in
  futures_pnl + call_pnl.

Definition calculate_covered_call : result (list PayoffDataPoint) :=
  let* futures_price := param "futuresPrice" (PFloat underlying_price) in
  let* call_strike := param "callStrike" (PFloat (underlying_price + 500)) in
  let* premium := param "premium" (PInt 200) in
  let* futures_lot_size := param "futuresLotSize" (PInt 50) in
  let* call_lot_size := param "callLotSize" (PInt 50) in
  let* points := price_points in
  Ok (map (data_point (covered_call_pnl futures_price call_strike premium
                         futures_lot_size call_lot_size)) points).

(** [total_pnl] of the loop body of [calculate_bull_call_spread]. *)
Definition bull_call_spread_pnl
  (long_call_strike short_call_strike long_call_premium short_call_premium
     lot_size p : float) : float :=
  let long_call_pnl :=
    if p <=? long_call_strike then - long_call_premium
    else (p - long_call_strike) - long_call_premium in
  let short_call_pnl :=
    if p <=? short_call_strike then short_call_premium
    else short_call_premium - (p - short_call_strike) in
  (long_call_pnl + short_call_pnl) * lot_size.

Definition calculate_bull_call_spread : result (list PayoffDataPoint) :=
  let* long_call_strike := param "longCallStrike" (PFloat underlying_price) in
  let* short_call_strike :=
    param "shortCallStrike" (PFloat (underlying_price + 1000)) in
  let* long_call_premium := param "longCallPremium" (PInt 300) in
  let* short_call_premium := param "shortCallPremium" (PInt 150) in
  let* lot_size := param "lotSize" (PInt 50) in
  let* points := price_points in
  Ok (map (data_point (bull_call_spread_pnl long_call_strike short_call_strike
                         long_call_premium short_call_premium lot_size)) points).

(** [total_pnl] of the loop body of [calculate_iron_condor]. *)
Definition iron_condor_pnl
  (lot_size put_buy_strike put_sell_strike call_sell_strike call_buy_strike
     net_premium p : float) : float :=
  let pnl0 := net_premium in
  let pnl1 :=
    if p <? put_buy_strike
    then pnl0 - ((put_buy_strike - p) - (put_sell_strike - p))
    else if p <? put_sell_strike
         then pnl0 - (put_sell_strike - p)
         else pnl0 in
  let pnl2 :=
    if call_buy_strike <? p
    then pnl1 - ((p - call_buy_strike) - (p - call_sell_strike))
    else if call_sell_strike <? p
         then pnl1 - (p - call_sell_strike)
         else pnl1 in
  pnl2 * lot_size.

Definition calculate_iron_condor : result (list PayoffDataPoint) :=
  let* lot_size := param "lotSize" (PInt 50) in
  let* put_buy_strike := param "putBuyStrike" (PFloat (underlying_price - 1000)) in
  let* put_sell_strike := param "putSellStrike" (PFloat (underlying_price - 500)) in
  let* call_sell_strike := param "callSellStrike" (PFloat (underlying_price + 500)) in
  let* call_buy_strike := param "callBuyStrike" (PFloat (underlying_price + 1000)) in
  let* net_premium := param "netPremium" (PInt 100) in
  let* points := price_points in
  Ok (map (data_point (iron_condor_pnl lot_size put_buy_strike put_sell_strike
                         call_sell_strike call_buy_strike net_premium)) points).

(** [total_pnl] of the loop body of [calculate_long_straddle]. *)
Definition long_straddle_pnl (strike call_premium put_premium lot_size p : float)
  : float :=
  let call_pnl := max0 (p - strike) - call_premium in
  let put_pnl := max0 (strike - p) - put_premium in
  (call_pnl + put_pnl) * lot_size.

Definition calculate_long_straddle : result (list PayoffDataPoint) :=
  let* strike := param "strike" (PFloat underlying_price) in
  let* call_premium := param "callPremium" (PInt 300) in
  let* put_premium := param "putPremium" (PInt 300) in
  let* lot_size := param "lotSize" (PInt 50) in
  let* points := price_points in
  Ok (map (data_point (long_straddle_pnl strike call_premium put_premium lot_size))
        points).

(** [total_pnl] of the loop body of [calculate_protective_put]. *)
Definition protective_put_pnl (stock_price put_strike put_premium lot_size p : float)
  : float :=
  let stock_pnl := p - stock_price in
  let put_pnl := max0 (put_strike - p) - put_premium in
  (stock_pnl + put_pnl) * lot_size.

Definition calculate_protective_put : result (list PayoffDataPoint) :=
  let* stock_price := param "stockPrice" (PFloat underlying_price) in
  let* put_strike := param "putStrike" (PFloat (underlying_price - 500)) in
  let* put_premium := param "putPremium" (PInt 200) in
  let* lot_size := param "lotSize" (PInt 50) in
  let* points := price_points in
  Ok (map (data_point (protective_put_pnl stock_price put_strike put_premium lot_size))
        points).

(** [total_pnl] of the loop body of [calculate_butterfly_spread]. *)
Definition butterfly_spread_pnl
  (lower_strike middle_strike upper_strike lower_premium middle_premium
     upper_premium lot_size p : float) : float :=
  let lower_pnl := max0 (p - lower_strike) - lower_premium in
  let middle_pnl := (middle_premium - max0 (p - middle_strike)) * 2 in
  let upper_pnl := max0 (p - upper_strike) - upper_premium in
  (lower_pnl + middle_pnl + upper_pnl) * lot_size.

Definition calculate_butterfly_spread : result (list PayoffDataPoint) :=
  let* lower_strike := param "lowerStrike" (PFloat (underlying_price - 500)) in
  let* middle_strike := param "middleStrike" (PFloat underlying_price) in
  let* upper_strike := param "upperStrike" (PFloat (underlying_price + 500)) in
  let* lower_premium := param "lowerPremium" (PInt 300) in
  let* middle_premium := param "middlePremium" (PInt 200) in
  let* upper_premium := param "upperPremium" (PInt 100) in
  let* lot_size := param "lotSize" (PInt 50) in
  let* points := price_points in
  Ok (map (data_point (butterfly_spread_pnl lower_strike middle_strike upper_strike
                         lower_premium middle_premium upper_premium lot_size))
        points).
End FixedStrategies.

(** ** calculate_custom_strategy *)

(** [leg_pnl] of one pass of the inner loop: the leg's reads, then the case
    analysis on its type and action. *)
Definition leg_pnl (underlying_price p : float) (leg : gmap string pyval)
  : result float :=
  let* lot_size := py_float (get_default leg "lotSize" (PInt 0)) in
  if get_is leg "type" "FUT" then
    let* entry_price :=
      py_float (get_default leg "entryPrice" (PFloat underlying_price)) in
    if get_is leg "action" "BUY"
    then Ok ((p - entry_price) * lot_size)
    else Ok ((entry_price - p) * lot_size)
  else
    let* strike := py_float (get_default leg "strike" (PFloat underlying_price)) in
    let* premium := py_float (get_default leg "premium" (PInt 0)) in
    let intrinsic :=
      if get_is leg "type" "CE" then max0 (p - strike) else max0 (strike - p) in
    if get_is leg "action" "BUY"
    then Ok ((intrinsic - premium) * lot_size)
    else Ok ((premium - intrinsic) * lot_size).

(** The inner loop: [total_pnl = 0], then [total_pnl += leg_pnl] leg by leg. *)
Definition custom_total_pnl
  (underlying_price : float) (custom_legs : list (gmap string pyval)) (p : float)
  : result float :=
  foldM (fun total_pnl leg =>
           let* x := leg_pnl underlying_price p leg in Ok (total_pnl + x))
    custom_legs 0.

Definition calculate_custom_strategy
  (custom_legs : list (gmap string pyval)) (underlying_price price_range_percent : float)
  : result (list PayoffDataPoint) :=
  let* points :=
    calculate_price_range underlying_price price_range_percent default_num_points in
  forM (fun p =>
          let* total_pnl := custom_total_pnl underlying_price custom_legs p in
          Ok {| price := round2 p; pnl := round2 total_pnl |})
    points.

(** ** calculate_payoff *)

Abbreviation calculator :=
  (gmap string pyval -> float -> float -> result (list PayoffDataPoint)).

Definition strategy_calculators : gmap string calculator :=
  list_to_map
    [ ("covered-call", calculate_covered_call);
      ("bull-call-spread", calculate_bull_call_spread);
      ("iron-condor", calculate_iron_condor);
      ("long-straddle", calculate_long_straddle);
      ("protective-put", calculate_protective_put);
      ("butterfly-spread", calculate_butterfly_spread) ].

(** [parameters] and [custom_legs] may be [None]. *)
Definition calculate_payoff
  (strategy_type : string) (parameters : option (gmap string pyval))
  (underlying_price price_range_percent : float)
  (custom_legs : option (list (gmap string pyval)))
  : result (list PayoffDataPoint) :=
  let parameters := default ∅ parameters in
  if String.eqb strategy_type "custom-strategy" then
    match custom_legs with
    | None | Some [] => Ok []
    | Some legs => calculate_custom_strategy legs underlying_price price_range_percent
    end
  else
    match strategy_calculators !! strategy_type with
    | None => Raise (ValueError ("Unknown strategy type: " +:+ strategy_type))
    | Some calculate => calculate parameters underlying_price price_range_percent
    end.

(** ** The endpoint POST /payoff/calculate *)

Module PayoffRouter.

(** Modelled from the spec: the request schema [PayoffRequest] of
    [schemas/strategy.py] is not among the sources; these are the fields the
    endpoint documents, of which it reads all but the two dates. *)
Record PayoffRequest : Type := mkRequest {
  strategy_type : string;
  entry_date : string;
  expiry_date : string;
  parameters : option (gmap string pyval);
  underlying_price : float;
  price_range_percent : float;
  custom_legs : option (list (gmap string pyval))
}.

(** What the endpoint hands back: the curve, or the [HTTPException] it
    raises. *)
Inductive response : Type :=
| Returned (payoff_data : list PayoffDataPoint)
| HTTPException (status_code : Z) (detail : string).

(** [str(e)] of an exception of the service. *)
Definition str (e : exn) : string :=
  match e with
  | ValueError msg | OverflowError msg | ZeroDivisionError msg => msg
  end.

(** The [try] block with its two handlers: [ValueError] becomes 400, any
    other exception 500. *)
Definition calculate_payoff (request : PayoffRequest) : response :=
  match
    calculate_payoff (strategy_type request) (parameters request)
      (underlying_price request) (price_range_percent request) (custom_legs request)
  with
  | Ok payoff_data => Returned payoff_data
  | Raise (ValueError msg) => HTTPException 400 (str (ValueError msg))
  | Raise e => HTTPException 500 ("Internal server error: " +:+ str e)
  end.

End PayoffRouter.

(** * The specification's vocabulary *)

(** ** The grid *)

Definition minPrice (U r : float) : float := U * (1 - r / 100).
Definition maxPrice (U r : float) : float := U * (1 + r / 100).
Definition step (U r : float) (pointCount : Z) : float :=
  (maxPrice U r - minPrice U r) / float_of_Z (pointCount - 1).

(** The i-th value of the grid. *)
Definition grid_value (U r : float) (pointCount i : Z) : float :=
  minPrice U r + step U r pointCount * float_of_Z i.

(** The 50 prices every strategy walks. *)
Definition default_prices (U r : float) : list float :=
  map (grid_value U r default_num_points) (range default_num_points).

(** ** Rounding to two decimals *)

(** The binary64 closest to the decimal [k/100] with the sign [neg]. *)
Definition two_decimals (neg : bool) (k : Z) : float :=
  match k with
  | Zpos p => float_of_ratio neg p 100
  | _ => signed_zero neg
  end.

(** [y] is [x] rounded to two decimal places: for a finite [x], the binary64
    closest to a decimal with two places that is no further than half a
    hundredth from [x]; a zero, an infinity and [nan] are left as they
    are. *)
Definition rounded_to_2_places (x y : float) : Prop :=
  match Prim2SF x with
  | S754_finite s m e =>
      exists k : Z,
        (0 <= k)%Z /\ y = two_decimals s k /\
        (Qabs (mantissa_value m e - inject_Z k / 100) <= 1 # 200)%Q
  | _ => y = x
  end.

(** ** Strategy identifiers and their parameters *)

Definition fixed_strategies : list string :=
  [ "covered-call"; "bull-call-spread"; "iron-condor"; "long-straddle";
    "protective-put"; "butterfly-spread" ].

Definition known_strategy (s : string) : bool :=
  String.eqb s "custom-strategy" || bool_decide (s ∈ fixed_strategies).

(** The keys each fixed strategy recognizes, in the order it reads them. *)
Definition recognized_keys (s : string) : list string :=
  if String.eqb s "covered-call" then
    [ "futuresPrice"; "callStrike"; "premium"; "futuresLotSize"; "callLotSize" ]
  else if String.eqb s "bull-call-spread" then
    [ "longCallStrike"; "shortCallStrike"; "longCallPremium"; "shortCallPremium";
      "lotSize" ]
  else if String.eqb s "iron-condor" then
    [ "lotSize"; "putBuyStrike"; "putSellStrike"; "callSellStrike"; "callBuyStrike";
      "netPremium" ]
  else if String.eqb s "long-straddle" then
    [ "strike"; "callPremium"; "putPremium"; "lotSize" ]
  else if String.eqb s "protective-put" then
    [ "stockPrice"; "putStrike"; "putPremium"; "lotSize" ]
  else if String.eqb s "butterfly-spread" then
    [ "lowerStrike"; "middleStrike"; "upperStrike"; "lowerPremium"; "middlePremium";
      "upperPremium"; "lotSize" ]
  else [].

(** The value of a parameter: the one supplied, converted by [float()], or
    the documented default. *)
Definition parameter (parameters : gmap string pyval) (key : string) (dflt x : float)
  : Prop :=
  match parameters !! key with
  | Some v => py_float v = Ok x
  | None => x = dflt
  end.

(** The raw per-price P&L of a fixed strategy for the parameters supplied
    and the underlying price [U]. *)
Inductive strategy_formula (parameters : gmap string pyval) (U : float)
  : string -> (float -> float) -> Prop :=
| formula_covered_call fp cs prem fl cl :
    parameter parameters "futuresPrice" U fp ->
    parameter parameters "callStrike" (U + 500) cs ->
    parameter parameters "premium" 200 prem ->
    parameter parameters "futuresLotSize" 50 fl ->
    parameter parameters "callLotSize" 50 cl ->
    strategy_formula parameters U "covered-call" (covered_call_pnl fp cs prem fl cl)
| formula_bull_call_spread ls ss lp sp lot :
    parameter parameters "longCallStrike" U ls ->
    parameter parameters "shortCallStrike" (U + 1000) ss ->
    parameter parameters "longCallPremium" 300 lp ->
    parameter parameters "shortCallPremium" 150 sp ->
    parameter parameters "lotSize" 50 lot ->
    strategy_formula parameters U "bull-call-spread"
      (bull_call_spread_pnl ls ss lp sp lot)
| formula_iron_condor lot pbs pss css cbs np :
    parameter parameters "lotSize" 50 lot ->
    parameter parameters "putBuyStrike" (U - 1000) pbs ->
    parameter parameters "putSellStrike" (U - 500) pss ->
    parameter parameters "callSellStrike" (U + 500) css ->
    parameter parameters "callBuyStrike" (U + 1000) cbs ->
    parameter parameters "netPremium" 100 np ->
    strategy_formula parameters U "iron-condor"
      (iron_condor_pnl lot pbs pss css cbs np)
| formula_long_straddle strike cp pp lot :
    parameter parameters "strike" U strike ->
    parameter parameters "callPremium" 300 cp ->
    parameter parameters "putPremium" 300 pp ->
    parameter parameters "lotSize" 50 lot ->
    strategy_formula parameters U "long-straddle"
      (long_straddle_pnl strike cp pp lot)
| formula_protective_put stock ps pp lot :
    parameter parameters "stockPrice" U stock ->
    parameter parameters "putStrike" (U - 500) ps ->
    parameter parameters "putPremium" 200 pp ->
    parameter parameters "lotSize" 50 lot ->
    strategy_formula parameters U "protective-put"
      (protective_put_pnl stock ps pp lot)
| formula_butterfly_spread lower middle upper lp mp up lot :
    parameter parameters "lowerStrike" (U - 500) lower ->
    parameter parameters "middleStrike" U middle ->
    parameter parameters "upperStrike" (U + 500) upper ->
    parameter parameters "lowerPremium" 300 lp ->
    parameter parameters "middlePremium" 200 mp ->
    parameter parameters "upperPremium" 100 up ->
    parameter parameters "lotSize" 50 lot ->
    strategy_formula parameters U "butterfly-spread"
      (butterfly_spread_pnl lower middle upper lp mp up lot).

(** ** Malformed parameters *)

(** Whether [float()] rejects a value. *)
Definition rejected (v : pyval) : bool :=
  match py_float v with
  | Ok _ => false
  | Raise _ => true
  end.

(** The first rejected value, reading the keys in order. *)
Fixpoint first_bad (d : gmap string pyval) (keys : list string) : option pyval :=
  match keys with
  | [] => None
  | key :: keys' =>
      match d !! key with
      | Some v => if rejected v then Some v else first_bad d keys'
      | None => first_bad d keys'
      end
  end.

(** The exception of [float()] on the string [s]. *)
Definition conversion_error (s : string) : exn :=
  ValueError ("could not convert string to float: " +:+ Repr.repr s).

(** The exception of [float()] on an int beyond the range of a float. *)
Definition int_too_large : exn := OverflowError "int too large to convert to float".

(** Whether a message mentions [field]. *)
Definition names_field (msg field : string) : bool :=
  match String.index 0 field msg with
  | Some _ => true
  | None => false
  end.

(** A computation whose exceptions, if any, all satisfy [P]. *)
Definition raises_only {A : Type} (P : exn -> Prop) (m : result A) : Prop :=
  match m with
  | Ok _ => True
  | Raise e => P e
  end.

(** The exceptions of [float()]. *)
Definition is_conversion_error (e : exn) : Prop :=
  (exists s, e = conversion_error s) \/ e = int_too_large.

(** ** Legs *)

(** Modelled from the spec: the Leg of the data model,
    [{type: FUT|CE|PE, action: BUY|SELL, lotSize, entryPrice?, strike?, premium?}],
    whose schema class is not among the sources. *)
Inductive LegType : Type := FUT | CE | PE.
Inductive LegAction : Type := BUY | SELL.

Record Leg : Type := mkLeg {
  l_type : LegType;
  l_action : LegAction;
  l_lotSize : float;
  l_entryPrice : option float;
  l_strike : option float;
  l_premium : option float
}.

Definition type_tag (t : LegType) : string :=
  match t with FUT => "FUT" | CE => "CE" | PE => "PE" end.

Definition action_tag (a : LegAction) : string :=
  match a with BUY => "BUY" | SELL => "SELL" end.

Definition set_opt (key : string) (o : option float) (d : gmap string pyval)
  : gmap string pyval :=
  match o with
  | Some x => <[key := PFloat x]> d
  | None => d
  end.

(** The dictionary the evaluator receives for a leg. *)
Definition leg_dict (l : Leg) : gmap string pyval :=
  <["type" := PStr (type_tag (l_type l))]>
    (<["action" := PStr (action_tag (l_action l))]>
       (<["lotSize" := PFloat (l_lotSize l)]>
          (set_opt "entryPrice" (l_entryPrice l)
             (set_opt "strike" (l_strike l)
                (set_opt "premium" (l_premium l) ∅))))).

(** intrinsic = max(0, price - strike) for CE, max(0, strike - price) for PE. *)
Definition intrinsic (t : LegType) (strike p : float) : float :=
  match t with
  | CE => max0 (p - strike)
  | PE => max0 (strike - p)
  | FUT => 0
  end.

(** legPnl of the specification. *)
Definition legPnl (U p : float) (l : Leg) : float :=
  match l_type l with
  | FUT =>
      let entryPrice := default U (l_entryPrice l) in
      match l_action l with
      | BUY => (p - entryPrice) * l_lotSize l
      | SELL => (entryPrice - p) * l_lotSize l
      end
  | t =>
      let strike := default U (l_strike l) in
      let premium := default 0 (l_premium l) in
      match l_action l with
      | BUY => (intrinsic t strike p - premium) * l_lotSize l
      | SELL => (premium - intrinsic t strike p) * l_lotSize l
      end
  end.

(** The sum the loop accumulates: from 0, adding from the left. *)
Definition sum_in_order (xs : list float) : float := fold_left add xs 0.



(** Two values that are the same number: identical, or both a zero. *)
Definition same_number (x y : float) : Prop :=
  x = y \/ ((x =? 0) = true /\ (y =? 0) = true).


(** ** What a leg reads *)

(** The keys the loop body reads from a leg, after its type and action, in
    reading order: lotSize, then entryPrice for a future and strike and
    premium otherwise. *)
Definition leg_float_keys (leg : gmap string pyval) : list string :=
  if get_is leg "type" "FUT" then [ "lotSize"; "entryPrice" ]
  else [ "lotSize"; "strike"; "premium" ].

Definition leg_keys (leg : gmap string pyval) : list string :=
  "type" :: "action" :: leg_float_keys leg.

(** The first value [float()] rejects, reading the legs in order. *)
Fixpoint legs_first_bad (legs : list (gmap string pyval)) : option pyval :=
  match legs with
  | [] => None
  | leg :: legs' =>
      match first_bad leg (leg_float_keys leg) with
      | Some v => Some v
      | None => legs_first_bad legs'
      end
  end.

(** The exception [float()] raises on a rejected value. *)
Definition rejection (v : pyval) : exn :=
  match v with
  | PStr s => conversion_error s
  | _ => int_too_large
  end.

(** ** Scenarios *)

(** The covered-call scenario of the specification, with the values given as
    strings as in the endpoint's documented request. *)
Definition covered_call_scenario : gmap string pyval :=
  list_to_map
    [ ("futuresPrice", PStr "18000"); ("callStrike", PStr "18500");
      ("premium", PStr "200"); ("futuresLotSize", PStr "50");
      ("callLotSize", PStr "50") ].

(** The curve the service returns for it. *)
Definition covered_call_scenario_curve : list PayoffDataPoint :=
  Eval vm_compute in
    match calculate_payoff "covered-call" (Some covered_call_scenario) 18000 30 None with
    | Ok pts => pts
    | Raise _ => []
    end.

(** A long future hedged by a sold call and a bought put. *)
Definition sample_legs : list Leg :=
  [ mkLeg FUT BUY 50 (Some 18000) None None;
    mkLeg CE SELL 50 None (Some 18500) (Some 200);
    mkLeg PE BUY 50 None (Some 17500) (Some 150) ].

(** A leg with an unknown type and action, a numeric string and no lotSize. *)
Definition odd_leg : gmap string pyval :=
  list_to_map
    [ ("type", PStr "XYZ"); ("action", PStr "HOLD");
      ("strike", PStr "18000"); ("premium", PInt 100) ].

(** A sold put of one lot, struck at 1000, for the premium given as text. *)
Definition sold_put (premium : string) : gmap string pyval :=
  list_to_map
    [ ("type", PStr "PE"); ("action", PStr "SELL"); ("lotSize", PInt 1);
      ("strike", PInt 1000); ("premium", PStr premium) ].



(** * Verification *)

(** ** Facts about binary64 *)





Lemma is_zero_spec (x : float) :
  (x =? 0) = match Prim2SF x with S754_zero _ => true | _ => false end.
Proof.
  rewrite FloatAxioms.eqb_spec. change (Prim2SF 0) with (S754_zero false).
  destruct (Prim2SF x) as [s | s | | s m e]; try reflexivity; destruct s; reflexivity.
Qed.


(** Taking 0 away changes nothing, not even the sign of a zero. *)
Lemma sub_zero_r (x : float) : x - 0 = x.
Proof.
  apply Prim2SF_inj. rewrite sub_spec. change (Prim2SF 0) with (S754_zero false).
  destruct (Prim2SF x) as [[] | [] | | s m e]; reflexivity.
Qed.




(** The sum of two zeros is a zero. *)
Lemma add_zeros (x y : float) :
  (x =? 0) = true -> (y =? 0) = true -> (x + y =? 0) = true.
Proof.
  rewrite !is_zero_spec, add_spec.
  destruct (Prim2SF x) as [sx | | |]; try discriminate.
  destruct (Prim2SF y) as [sy | | |]; try discriminate.
  destruct sx, sy; reflexivity.
Qed.




Lemma same_number_refl (x : float) : same_number x x.
Proof. left. reflexivity. Qed.


(** Conversions of ints *)

Lemma int_float_bound_pos : (0 < int_float_bound)%Z.
Proof. reflexivity. Qed.

Lemma float_of_int_ok (n : Z) :
  (Z.abs n < int_float_bound)%Z -> float_of_int n = Ok (float_of_Z n).
Proof.
  intros H. unfold float_of_int.
  destruct (Z.ltb_spec (Z.abs n) int_float_bound); [reflexivity | lia].
Qed.

Lemma float_of_int_overflow (n : Z) :
  (int_float_bound <= Z.abs n)%Z -> float_of_int n = Raise int_too_large.
Proof.
  intros H. unfold float_of_int.
  destruct (Z.ltb_spec (Z.abs n) int_float_bound); [lia | reflexivity].
Qed.

(** ** The price grid *)

Lemma map_fmap {A B : Type} (f : A -> B) (l : list A) : map f l = f <$> l.
Proof. reflexivity. Qed.

Lemma length_range (n : Z) : length (range n) = Z.to_nat n.
Proof. unfold range. rewrite length_map, length_seq. reflexivity. Qed.


Lemma range_nonpos (n : Z) : (n <= 0)%Z -> range n = [].
Proof. intros Hn. unfold range. replace (Z.to_nat n) with 0%nat by lia. reflexivity. Qed.

Lemma range_bounds (n i : Z) : i ∈ range n -> (0 <= i < n)%Z.
Proof.
  unfold range. rewrite map_fmap. intros H.
  apply list_elem_of_fmap in H as (k & -> & Hk).
  apply elem_of_seq in Hk. lia.
Qed.

Lemma forM_map_ok_in {A B : Type} (f : A -> result B) (g : A -> B) (l : list A) :
  (forall a, a ∈ l -> f a = Ok (g a)) -> forM f l = Ok (map g l).
Proof.
  induction l as [| a l IH]; intros H; cbn; [reflexivity|].
  rewrite H by apply list_elem_of_here.
  rewrite IH by (intros b Hb; apply H, list_elem_of_further, Hb). reflexivity.
Qed.

(** Whenever [num_points - 1] is neither 0 nor beyond the range of a float,
    the list is the image of [range(num_points)]. *)
Lemma price_range_ok (U r : float) (n : Z) :
  n <> 1%Z -> (Z.abs (n - 1) < int_float_bound)%Z ->
  calculate_price_range U r n = Ok (map (grid_value U r n) (range n)).
Proof.
  intros Hn Hb. unfold calculate_price_range, py_div.
  destruct (Z.eqb_spec (n - 1) 0) as [E | E]; [lia|].
  rewrite float_of_int_ok by exact Hb. cbn [bind].
  apply forM_map_ok_in. intros i Hi. apply range_bounds in Hi.
  rewrite float_of_int_ok by lia. reflexivity.
Qed.

Lemma price_range_one (U r : float) :
  calculate_price_range U r 1 = Raise (ZeroDivisionError "float division by zero").
Proof. reflexivity. Qed.

Lemma price_range_overflow (U r : float) (n : Z) :
  (int_float_bound <= Z.abs (n - 1))%Z ->
  calculate_price_range U r n = Raise int_too_large.
Proof.
  intros Hb. unfold calculate_price_range, py_div.
  pose proof int_float_bound_pos.
  destruct (Z.eqb_spec (n - 1) 0) as [E | E]; [lia|].
  rewrite float_of_int_overflow by exact Hb. reflexivity.
Qed.






(** C7 as stated fails for cardinalities below 1: [range] is empty and the
    divisor is not zero. *)
Lemma price_range_zero_points :
  (0 < 2)%Z /\ calculate_price_range 18000 30 0 = Ok [].
Proof. split; reflexivity. Qed.

(** C7 (amended). The division by zero is raised exactly for pointCount = 1;
    a smaller pointCount yields the empty list without any failure, and for
    pointCount >= 2 the divisor is not zero and pointCount values result.
    (Where pointCount - 1 is beyond the range of a float its conversion
    raises OverflowError before anything is divided.) *)
Theorem price_range_failure (U r : float) (pointCount : Z) :
  if (Z.abs (pointCount - 1) <? int_float_bound)%Z then
    match (pointCount ?= 1)%Z with
    | Eq => calculate_price_range U r pointCount
            = Raise (ZeroDivisionError "float division by zero")
    | Lt => calculate_price_range U r pointCount = Ok []
    | Gt => exists grid, calculate_price_range U r pointCount = Ok grid /\
                         length grid = Z.to_nat pointCount /\
                         (pointCount - 1 <> 0)%Z
    end
  else
    calculate_price_range U r pointCount
    = Raise (OverflowError "int too large to convert to float").
Proof.
  destruct (Z.ltb_spec (Z.abs (pointCount - 1)) int_float_bound) as [Hb | Hb].
  - destruct (Z.compare_spec pointCount 1) as [-> | Hlt | Hgt].
    + apply price_range_one.
    + rewrite price_range_ok by lia. rewrite range_nonpos by lia. reflexivity.
    + eexists. split; [apply price_range_ok; lia|]. split.
      * rewrite length_map. apply length_range.
      * lia.
  - apply price_range_overflow. exact Hb.
Qed.

(** ** Fixed strategies: the shape of a successful run *)

Lemma default_grid (U r : float) :
  calculate_price_range U r default_num_points = Ok (default_prices U r).
Proof. apply price_range_ok; [discriminate | reflexivity]. Qed.

Lemma default_prices_length (U r : float) : length (default_prices U r) = 50%nat.
Proof. unfold default_prices. rewrite length_map, length_range. reflexivity. Qed.

Lemma Forall2_map_diag {A B : Type} (R : A -> B -> Prop) (f : A -> B) (l : list A) :
  (forall a, R a (f a)) -> Forall2 R l (map f l).
Proof. intros H. induction l as [| a l IH]; simpl; constructor; auto. Qed.

(** Runs a fixed strategy whose parameter reads are known to succeed. *)
Ltac run_fixed :=
  cbv zeta;
  repeat match goal with
    | H : float_param _ _ _ = Ok _ |- _ => rewrite H; clear H
    end;
  cbn [bind]; rewrite default_grid; cbn [bind].

(** C2. On a successful run of [calculate_covered_call] every point is the
    rounded grid price with pnl = futPnl + callPnl, callPnl taking the
    price <= strike branch up to and including the strike and the other
    branch otherwise; in the concrete scenario the P&L at 18500 is 35000. *)
Theorem covered_call_curve
  (parameters : gmap string pyval)
  (U r futuresPrice callStrike premium futuresLotSize callLotSize : float) :
  float_param parameters "futuresPrice" (PFloat U) = Ok futuresPrice ->
  float_param parameters "callStrike" (PFloat (U + 500)) = Ok callStrike ->
  float_param parameters "premium" (PInt 200) = Ok premium ->
  float_param parameters "futuresLotSize" (PInt 50) = Ok futuresLotSize ->
  float_param parameters "callLotSize" (PInt 50) = Ok callLotSize ->
  (exists grid pts,
      calculate_price_range U r default_num_points = Ok grid /\
      calculate_covered_call parameters U r = Ok pts /\
      Forall2 (fun p pt =>
                 exists futPnl callPnl : float,
                   futPnl = (p - futuresPrice) * futuresLotSize /\
                   ((p <=? callStrike) = true -> callPnl = premium * callLotSize) /\
                   ((p <=? callStrike) = false ->
                    callPnl = (premium - (p - callStrike)) * callLotSize) /\
                   price pt = round2 p /\
                   pnl pt = round2 (futPnl + callPnl))
        grid pts) /\
  (18500 <=? 18500) = true /\
  covered_call_pnl 18000 18500 200 50 50 18500 = 35000.
Proof.
  intros H1 H2 H3 H4 H5. split; [| split; reflexivity].
  eexists. eexists. split; [apply default_grid|]. split.
  - unfold calculate_covered_call. run_fixed. reflexivity.
  - apply Forall2_map_diag. intros p.
    exists ((p - futuresPrice) * futuresLotSize).
    unfold data_point, covered_call_pnl. cbn [price pnl].
    destruct (p <=? callStrike).
    + exists (premium * callLotSize).
      repeat apply conj; try reflexivity. discriminate.
    + exists ((premium - (p - callStrike)) * callLotSize).
      repeat apply conj; try reflexivity. discriminate.
Qed.

Lemma covered_call_curve_witness :
  (exists grid pts,
      calculate_price_range 18000 30 default_num_points = Ok grid /\
      calculate_covered_call covered_call_scenario 18000 30 = Ok pts /\
      Forall2 (fun p pt =>
                 exists futPnl callPnl : float,
                   futPnl = (p - 18000) * 50 /\
                   ((p <=? 18500) = true -> callPnl = 200 * 50) /\
                   ((p <=? 18500) = false -> callPnl = (200 - (p - 18500)) * 50) /\
                   price pt = round2 p /\
                   pnl pt = round2 (futPnl + callPnl))
        grid pts) /\
  (18500 <=? 18500) = true /\
  covered_call_pnl 18000 18500 200 50 50 18500 = 35000.
Proof.
  apply (covered_call_curve covered_call_scenario 18000 30 18000 18500 200 50 50);
    vm_compute; reflexivity.
Defined.

Lemma float_param_absent (parameters : gmap string pyval) (key : string) (dflt : pyval) :
  parameters !! key = None -> float_param parameters key dflt = py_float dflt.
Proof. intros H. unfold float_param, get_default. rewrite H. reflexivity. Qed.

Lemma float_param_default_float
  (parameters : gmap string pyval) (key : string) (dflt x : float) :
  float_param parameters key (PFloat dflt) = Ok x -> parameters !! key = None ->
  x = dflt.
Proof. intros H Habs. rewrite float_param_absent in H by exact Habs. cbn in H. congruence. Qed.

Lemma float_param_default_int
  (parameters : gmap string pyval) (key : string) (dflt : Z) (x : float) :
  float_param parameters key (PInt dflt) = Ok x -> parameters !! key = None ->
  float_of_int dflt = Ok x.
Proof. intros H Habs. rewrite float_param_absent in H by exact Habs. exact H. Qed.

(** C3. On a successful run of [calculate_iron_condor] every point carries
    (netPremium - putLoss - callLoss) * lotSize, where each loss is the spread
    below the bought strike, the distance to the sold strike between the two,
    and nothing otherwise (a price equal to a strike is not breached); absent
    keys take the defaults U-1000, U-500, U+500, U+1000, 100 and 50. *)
Theorem iron_condor_curve
  (parameters : gmap string pyval)
  (U r lotSize putBuyStrike putSellStrike callSellStrike callBuyStrike netPremium
     : float) :
  float_param parameters "lotSize" (PInt 50) = Ok lotSize ->
  float_param parameters "putBuyStrike" (PFloat (U - 1000)) = Ok putBuyStrike ->
  float_param parameters "putSellStrike" (PFloat (U - 500)) = Ok putSellStrike ->
  float_param parameters "callSellStrike" (PFloat (U + 500)) = Ok callSellStrike ->
  float_param parameters "callBuyStrike" (PFloat (U + 1000)) = Ok callBuyStrike ->
  float_param parameters "netPremium" (PInt 100) = Ok netPremium ->
  (exists grid pts,
      calculate_price_range U r default_num_points = Ok grid /\
      calculate_iron_condor parameters U r = Ok pts /\
      Forall2 (fun p pt =>
                 exists putLoss callLoss : float,
                   ((p <? putBuyStrike) = true ->
                    putLoss = (putBuyStrike - p) - (putSellStrike - p)) /\
                   ((p <? putBuyStrike) = false -> (p <? putSellStrike) = true ->
                    putLoss = putSellStrike - p) /\
                   ((p <? putBuyStrike) = false -> (p <? putSellStrike) = false ->
                    putLoss = 0) /\
                   ((callBuyStrike <? p) = true ->
                    callLoss = (p - callBuyStrike) - (p - callSellStrike)) /\
                   ((callBuyStrike <? p) = false -> (callSellStrike <? p) = true ->
                    callLoss = p - callSellStrike) /\
                   ((callBuyStrike <? p) = false -> (callSellStrike <? p) = false ->
                    callLoss = 0) /\
                   price pt = round2 p /\
                   pnl pt = round2 ((netPremium - putLoss - callLoss) * lotSize))
        grid pts) /\
  (parameters !! "putBuyStrike" = None -> putBuyStrike = U - 1000) /\
  (parameters !! "putSellStrike" = None -> putSellStrike = U - 500) /\
  (parameters !! "callSellStrike" = None -> callSellStrike = U + 500) /\
  (parameters !! "callBuyStrike" = None -> callBuyStrike = U + 1000) /\
  (parameters !! "netPremium" = None -> netPremium = 100) /\
  (parameters !! "lotSize" = None -> lotSize = 50).
Proof.
  intros H1 H2 H3 H4 H5 H6.
  split; [| repeat split; eauto using float_param_default_float ].
  - eexists. eexists. split; [apply default_grid|]. split.
    + unfold calculate_iron_condor. run_fixed. reflexivity.
    + apply Forall2_map_diag. intros p.
      unfold data_point, iron_condor_pnl. cbn [price pnl].
      exists (if p <? putBuyStrike then (putBuyStrike - p) - (putSellStrike - p)
              else if p <? putSellStrike then putSellStrike - p else 0).
      exists (if callBuyStrike <? p then (p - callBuyStrike) - (p - callSellStrike)
              else if callSellStrike <? p then p - callSellStrike else 0).
      destruct (p <? putBuyStrike), (p <? putSellStrike),
        (callBuyStrike <? p), (callSellStrike <? p);
        rewrite ?sub_zero_r;
        (repeat apply conj; first [ reflexivity | intros; first [reflexivity | discriminate] ]).
  - intros Habs. pose proof (float_param_default_int _ _ _ _ H6 Habs) as E.
    vm_compute in E. congruence.
  - intros Habs. pose proof (float_param_default_int _ _ _ _ H1 Habs) as E.
    vm_compute in E. congruence.
Qed.

Lemma iron_condor_curve_witness :
  (exists grid pts,
      calculate_price_range 18000 30 default_num_points = Ok grid /\
      calculate_iron_condor ∅ 18000 30 = Ok pts /\
      Forall2 (fun p pt =>
                 exists putLoss callLoss : float,
                   ((p <? 17000) = true -> putLoss = (17000 - p) - (17500 - p)) /\
                   ((p <? 17000) = false -> (p <? 17500) = true ->
                    putLoss = 17500 - p) /\
                   ((p <? 17000) = false -> (p <? 17500) = false -> putLoss = 0) /\
                   ((19000 <? p) = true -> callLoss = (p - 19000) - (p - 18500)) /\
                   ((19000 <? p) = false -> (18500 <? p) = true ->
                    callLoss = p - 18500) /\
                   ((19000 <? p) = false -> (18500 <? p) = false -> callLoss = 0) /\
                   price pt = round2 p /\
                   pnl pt = round2 ((100 - putLoss - callLoss) * 50))
        grid pts) /\
  ((∅ : gmap string pyval) !! "putBuyStrike" = None -> 17000 = 18000 - 1000) /\
  ((∅ : gmap string pyval) !! "putSellStrike" = None -> 17500 = 18000 - 500) /\
  ((∅ : gmap string pyval) !! "callSellStrike" = None -> 18500 = 18000 + 500) /\
  ((∅ : gmap string pyval) !! "callBuyStrike" = None -> 19000 = 18000 + 1000) /\
  ((∅ : gmap string pyval) !! "netPremium" = None -> 100 = 100) /\
  ((∅ : gmap string pyval) !! "lotSize" = None -> 50 = 50).
Proof.
  apply (iron_condor_curve ∅ 18000 30 50 17000 17500 18500 19000 100);
    vm_compute; reflexivity.
Defined.

(** ** Loops in the error monad *)

Lemma forM_map_ok {A B : Type} (f : A -> result B) (g : A -> B) (l : list A) :
  (forall a, f a = Ok (g a)) -> forM f l = Ok (map g l).
Proof. intros H. apply forM_map_ok_in. intros a _. apply H. Qed.

Lemma forM_map {A B C : Type} (f : B -> result C) (h : A -> B) (l : list A) :
  forM f (map h l) = forM (fun a => f (h a)) l.
Proof. induction l as [| a l IH]; cbn; [reflexivity|]. rewrite IH. reflexivity. Qed.

Lemma forM_ext {A B : Type} (f g : A -> result B) (l : list A) :
  (forall a, f a = g a) -> forM f l = forM g l.
Proof.
  intros H. induction l as [| a l IH]; cbn; [reflexivity|]. rewrite H, IH. reflexivity.
Qed.


(** ** The custom-leg evaluator *)

Lemma leg_dict_get (l : Leg) :
  leg_dict l !! "type" = Some (PStr (type_tag (l_type l))) /\
  leg_dict l !! "action" = Some (PStr (action_tag (l_action l))) /\
  leg_dict l !! "lotSize" = Some (PFloat (l_lotSize l)) /\
  leg_dict l !! "entryPrice" = PFloat <$> l_entryPrice l /\
  leg_dict l !! "strike" = PFloat <$> l_strike l /\
  leg_dict l !! "premium" = PFloat <$> l_premium l.
Proof.
  unfold leg_dict, set_opt.
  destruct (l_entryPrice l), (l_strike l), (l_premium l); simplify_map_eq; done.
Qed.

(** On the dictionary of a leg the loop body computes the specification's
    legPnl. *)
Lemma leg_pnl_dict (U p : float) (l : Leg) :
  leg_pnl U p (leg_dict l) = Ok (legPnl U p l).
Proof.
  destruct (leg_dict_get l) as (Ht & Ha & Hl & He & Hs & Hp).
  unfold leg_pnl, get_default, get_is, legPnl, intrinsic.
  rewrite Ht, Ha, Hl, He, Hs, Hp.
  destruct l as [[] [] lot [e|] [s|] [pr|]]; reflexivity.
Qed.

(** The accumulating loop reads every leg, then adds from the left. *)
Lemma foldM_forM (U p : float) (legs : list (gmap string pyval)) (acc : float) :
  foldM (fun total_pnl leg => let* x := leg_pnl U p leg in Ok (total_pnl + x)) legs acc
  = let* xs := forM (leg_pnl U p) legs in Ok (fold_left add xs acc).
Proof.
  revert acc. induction legs as [| leg legs IH]; intros acc; cbn; [reflexivity|].
  destruct (leg_pnl U p leg) as [x |]; cbn; [| reflexivity].
  rewrite IH. destruct (forM (leg_pnl U p) legs); reflexivity.
Qed.

Lemma custom_strategy_typed (legs : list Leg) (U r : float) :
  calculate_custom_strategy (map leg_dict legs) U r =
    Ok (map (fun p => {| price := round2 p;
                         pnl := round2 (sum_in_order (map (legPnl U p) legs)) |})
          (default_prices U r)).
Proof.
  unfold calculate_custom_strategy. rewrite default_grid. cbn [bind].
  apply forM_map_ok. intros p.
  unfold custom_total_pnl. rewrite foldM_forM.
  rewrite forM_map, (forM_map_ok _ (legPnl U p)) by (intros a; apply leg_pnl_dict).
  reflexivity.
Qed.

Lemma payoff_custom_nonempty
  (parameters : option (gmap string pyval)) (U r : float)
  (leg : gmap string pyval) (legs : list (gmap string pyval)) :
  calculate_payoff "custom-strategy" parameters U r (Some (leg :: legs))
  = calculate_custom_strategy (leg :: legs) U r.
Proof. reflexivity. Qed.

(** C4 as stated fails: the legs' P&Ls are added in list order, and a sum of
    floats depends on that order.  Three sold puts far out of the money, for
    the premiums 0.1, 0.2 and 0.045, give 0.35 in this order and 0.34 when
    the first is moved to the end. *)
Lemma custom_strategy_leg_order :
  let legs := [ sold_put "0.1"; sold_put "0.2"; sold_put "0.045" ] in
  let legs' := [ sold_put "0.2"; sold_put "0.045"; sold_put "0.1" ] in
  legs <> [] /\ Permutation legs legs' /\
  exists pts pts',
    calculate_custom_strategy legs 18000 30 = Ok pts /\
    calculate_custom_strategy legs' 18000 30 = Ok pts' /\
    Forall (fun pt => pnl pt = two_decimals false 35) pts /\
    Forall (fun pt => pnl pt = two_decimals false 34) pts' /\
    pts <> pts'.
Proof.
  cbv zeta. split; [discriminate|]. split.
  - change [sold_put "0.2"; sold_put "0.045"; sold_put "0.1"]
      with ([sold_put "0.2"; sold_put "0.045"] ++ [sold_put "0.1"]).
    apply Permutation_cons_append.
  - eexists. eexists. split; [vm_compute; reflexivity|].
    split; [vm_compute; reflexivity|].
    split; [| split].
    + repeat constructor.
    + repeat constructor.
    + intros E.
      apply (f_equal (fun l => match l with pt :: _ => pnl pt | [] => 0 end)) in E.
      apply Leibniz.eqb_spec in E. vm_compute in E. discriminate E.
Qed.

(** C4 (amended). For a non-empty list of legs the evaluator, called directly
    or through the dispatcher, returns at every grid price the rounded sum of
    the legs' legPnl (futures: signed distance to the entry price; options:
    intrinsic value against the premium; each times the lot size), the sum
    being accumulated from 0 in the order of the list. *)
Theorem custom_strategy_curve
  (parameters : option (gmap string pyval)) (legs : list Leg) (U r : float) :
  legs <> [] ->
  exists grid pts,
    calculate_price_range U r default_num_points = Ok grid /\
    calculate_custom_strategy (map leg_dict legs) U r = Ok pts /\
    calculate_payoff "custom-strategy" parameters U r (Some (map leg_dict legs)) = Ok pts /\
    Forall2 (fun p pt =>
               price pt = round2 p /\
               pnl pt = round2 (fold_left add (map (legPnl U p) legs) 0))
      grid pts.
Proof.
  intros Hne.
  eexists. eexists. split; [apply default_grid|].
  split; [apply custom_strategy_typed|]. split.
  - destruct legs as [| l legs]; [contradiction|].
    cbn [map]. rewrite payoff_custom_nonempty.
    change (leg_dict l :: map leg_dict legs) with (map leg_dict (l :: legs)).
    apply custom_strategy_typed.
  - apply Forall2_map_diag. intros p. split; reflexivity.
Qed.

Lemma custom_strategy_curve_witness :
  exists grid pts,
    calculate_price_range 18000 30 default_num_points = Ok grid /\
    calculate_custom_strategy (map leg_dict sample_legs) 18000 30 = Ok pts /\
    calculate_payoff "custom-strategy" None 18000 30 (Some (map leg_dict sample_legs))
    = Ok pts /\
    Forall2 (fun p pt =>
               price pt = round2 p /\
               pnl pt = round2 (fold_left add (map (legPnl 18000 p) sample_legs) 0))
      grid pts.
Proof. apply (custom_strategy_curve None sample_legs 18000 30). discriminate. Defined.

(** C5 as stated fails for the evaluator itself: given no legs it still walks
    the grid and returns 50 points. *)
Lemma custom_strategy_empty_list :
  exists pts, calculate_custom_strategy [] 18000 30 = Ok pts /\
              length pts = 50%nat /\ pts <> [].
Proof. eexists. split; [vm_compute; reflexivity|]. split; [reflexivity | discriminate]. Qed.

(** C5 (amended). Through the dispatcher a custom strategy with no legs
    (None or the empty list) is the empty list and no error; this is the
    dispatcher's guard, for the evaluator called with the empty list returns
    the 50 grid points, each with pnl 0. *)
Theorem empty_legs_result (parameters : option (gmap string pyval)) (U r : float) :
  calculate_payoff "custom-strategy" parameters U r None = Ok [] /\
  calculate_payoff "custom-strategy" parameters U r (Some []) = Ok [] /\
  exists grid,
    calculate_price_range U r default_num_points = Ok grid /\
    length grid = 50%nat /\
    calculate_custom_strategy [] U r
    = Ok (map (fun p => {| price := round2 p; pnl := round2 0 |}) grid) /\
    round2 0 = 0.
Proof.
  split; [reflexivity|]. split; [reflexivity|].
  eexists. split; [apply default_grid|]. split.
  - apply default_prices_length.
  - split; [| reflexivity].
    unfold calculate_custom_strategy. rewrite default_grid. cbn [bind].
    apply forM_map_ok. intros p. reflexivity.
Qed.

(** ** Which exceptions the service raises *)

Lemma raises_only_bind {A B : Type} (P : exn -> Prop)
  (m : result A) (k : A -> result B) :
  raises_only P m -> (forall a, raises_only P (k a)) -> raises_only P (bind m k).
Proof. destruct m as [a | e]; cbn; auto. Qed.

Lemma raises_only_forM {A B : Type} (P : exn -> Prop) (f : A -> result B) (l : list A) :
  (forall a, raises_only P (f a)) -> raises_only P (forM f l).
Proof.
  intros H. induction l as [| a l IH]; cbn [forM]; [exact I|].
  apply raises_only_bind; [apply H|]. intros y.
  apply raises_only_bind; [exact IH|]. intros ys. exact I.
Qed.

Lemma raises_only_foldM {A B : Type} (P : exn -> Prop)
  (f : B -> A -> result B) (l : list A) (acc : B) :
  (forall b a, raises_only P (f b a)) -> raises_only P (foldM f l acc).
Proof.
  intros H. revert acc. induction l as [| a l IH]; intros acc; cbn [foldM]; [exact I|].
  apply raises_only_bind; [apply H | intros b; apply IH].
Qed.

Lemma py_float_raises (v : pyval) : raises_only is_conversion_error (py_float v).
Proof.
  destruct v as [n | x | s]; cbn.
  - unfold float_of_int. destruct (Z.abs n <? int_float_bound)%Z; cbn; [exact I|].
    right. reflexivity.
  - exact I.
  - destruct (FloatLiteral.parse s); cbn; [exact I|]. left. exists s. reflexivity.
Qed.

Lemma float_param_raises (parameters : gmap string pyval) (key : string) (dflt : pyval) :
  raises_only is_conversion_error (float_param parameters key dflt).
Proof. apply py_float_raises. Qed.

Lemma default_grid_raises (P : exn -> Prop) (U r : float) :
  raises_only P (calculate_price_range U r default_num_points).
Proof. rewrite default_grid. exact I. Qed.

(** Steps through the reads of a calculator. *)
Ltac raises_steps :=
  cbv zeta;
  repeat (apply raises_only_bind;
          [ lazymatch goal with
            | |- raises_only _ (float_param _ _ _) => apply float_param_raises
            | |- raises_only _ (py_float _) => apply py_float_raises
            | |- raises_only _ (calculate_price_range _ _ _) => apply default_grid_raises
            end
          | intros ? ]);
  try exact I.

Lemma fixed_strategy_raises (s : string) (calculate : calculator)
  (parameters : gmap string pyval) (U r : float) :
  strategy_calculators !! s = Some calculate ->
  raises_only is_conversion_error (calculate parameters U r).
Proof.
  intros H. apply elem_of_list_to_map_2 in H.
  repeat (apply elem_of_cons in H as [[= -> ->] | H]);
    [ unfold calculate_covered_call | unfold calculate_bull_call_spread
    | unfold calculate_iron_condor | unfold calculate_long_straddle
    | unfold calculate_protective_put | unfold calculate_butterfly_spread
    | by apply elem_of_nil in H ];
    raises_steps.
Qed.

Lemma leg_pnl_raises (U p : float) (leg : gmap string pyval) :
  raises_only is_conversion_error (leg_pnl U p leg).
Proof.
  unfold leg_pnl. apply raises_only_bind; [apply py_float_raises | intros lot].
  destruct (get_is leg "type" "FUT"); raises_steps;
    destruct (get_is leg "action" "BUY"); exact I.
Qed.

Lemma custom_strategy_raises (legs : list (gmap string pyval)) (U r : float) :
  raises_only is_conversion_error (calculate_custom_strategy legs U r).
Proof.
  unfold calculate_custom_strategy.
  apply raises_only_bind; [apply default_grid_raises | intros grid].
  apply raises_only_forM. intros p.
  apply raises_only_bind; [| intros t; exact I].
  apply raises_only_foldM. intros total leg.
  apply raises_only_bind; [apply leg_pnl_raises | intros x; exact I].
Qed.

Lemma known_strategy_false (s : string) :
  known_strategy s = false ->
  String.eqb s "custom-strategy" = false /\ strategy_calculators !! s = None.
Proof.
  unfold known_strategy. intros H. apply orb_false_elim in H as [H1 H2].
  split; [exact H1|].
  apply bool_decide_eq_false in H2.
  apply not_elem_of_list_to_map_1. exact H2.
Qed.

Lemma known_strategy_true (s : string) :
  known_strategy s = true ->
  String.eqb s "custom-strategy" = true \/
  (String.eqb s "custom-strategy" = false /\
   exists calculate, strategy_calculators !! s = Some calculate).
Proof.
  unfold known_strategy. intros H.
  destruct (String.eqb s "custom-strategy") eqn:E; [left; reflexivity|].
  right. split; [reflexivity|]. cbn in H. apply bool_decide_eq_true in H.
  repeat (apply elem_of_cons in H as [-> | H]);
    [ eexists; reflexivity .. | by apply elem_of_nil in H ].
Qed.

(** For the seven identifiers every exception is one of [float()]. *)
Lemma known_strategy_raises
  (s : string) (parameters : option (gmap string pyval)) (U r : float)
  (legs : option (list (gmap string pyval))) :
  known_strategy s = true ->
  raises_only is_conversion_error (calculate_payoff s parameters U r legs).
Proof.
  intros K. unfold calculate_payoff.
  apply known_strategy_true in K as [E | (E & calculate & L)]; rewrite E.
  - destruct legs as [[| leg legs] |]; [exact I | apply custom_strategy_raises | exact I].
  - rewrite L. eapply fixed_strategy_raises. exact L.
Qed.

(** C6. For a strategyType that is none of the seven identifiers the
    dispatcher raises ValueError with the message Unknown strategy type
    followed by the offending value, and returns nothing; for each of the seven
    it never raises an error with that message. *)
Theorem unknown_strategy_type
  (s : string) (parameters : option (gmap string pyval)) (U r : float)
  (legs : option (list (gmap string pyval))) :
  if known_strategy s
  then forall v, calculate_payoff s parameters U r legs
                 <> Raise (ValueError ("Unknown strategy type: " +:+ v))
  else calculate_payoff s parameters U r legs
       = Raise (ValueError ("Unknown strategy type: " +:+ s)).
Proof.
  destruct (known_strategy s) eqn:K.
  - pose proof (known_strategy_raises s parameters U r legs K) as R.
    intros v Hv. rewrite Hv in R. destruct R as [[w Hw] | Hw]; discriminate Hw.
  - apply known_strategy_false in K as [E L].
    unfold calculate_payoff. rewrite E, L. reflexivity.
Qed.

(** ** Rounding to two decimals *)

Lemma round_half_even_near (y : Q) :
  (Qabs (y - inject_Z (round_half_even y)) <= 1 # 2)%Q.
Proof.
  unfold round_half_even.
  pose proof (Qfloor_le y) as Hlo. pose proof (Qlt_floor y) as Hhi.
  rewrite inject_Z_plus in Hhi. change (inject_Z 1) with 1%Q in Hhi.
  apply Qabs_Qle_condition.
  destruct (Qcompare_spec (y - inject_Z (Qfloor y)) (1 # 2)) as [E | L | G].
  - destruct (Z.even (Qfloor y));
      [| rewrite inject_Z_plus; change (inject_Z 1) with 1%Q ]; split; lra.
  - split; lra.
  - rewrite inject_Z_plus. change (inject_Z 1) with 1%Q. split; lra.
Qed.

Lemma round_half_even_nonneg (y : Q) : (0 <= y)%Q -> (0 <= round_half_even y)%Z.
Proof.
  intros Hy. unfold round_half_even.
  assert (H : (0 <= Qfloor y)%Z).
  { change 0%Z with (Qfloor 0). apply Qfloor_resp_le. exact Hy. }
  destruct (Qcompare _ _); [destruct (Z.even _) | |]; lia.
Qed.

Lemma mantissa_value_pos (m : positive) (e : Z) : (0 < mantissa_value m e)%Q.
Proof.
  unfold mantissa_value. apply Qmult_lt_0_compat; [reflexivity|].
  apply Qpower_0_lt. reflexivity.
Qed.

(** [round(x, 2)] is a number of two decimal places, half a hundredth from
    [x] at most. *)
Lemma round2_spec (x : float) : rounded_to_2_places x (round2 x).
Proof.
  unfold rounded_to_2_places, round2.
  destruct (Prim2SF x) as [s | s | | s m e]; try reflexivity.
  pose proof (mantissa_value_pos m e) as Hv.
  exists (round_half_even (mantissa_value m e * 100)%Q).
  split; [apply round_half_even_nonneg; lra|]. split; [reflexivity|].
  pose proof (round_half_even_near (mantissa_value m e * 100)%Q) as H.
  apply Qabs_Qle_condition in H. apply Qabs_Qle_condition.
  set (k := inject_Z (round_half_even (mantissa_value m e * 100)%Q)) in *.
  assert (E : (k / 100 == k * (1 # 100))%Q) by field.
  rewrite E. split; lra.
Qed.

(** ** The output of the fixed strategies *)

Lemma payoff_fixed (s : string) :
  s ∈ fixed_strategies ->
  exists calculate : calculator,
    (s, calculate) ∈ map_to_list strategy_calculators /\
    forall parameters U r legs,
      calculate_payoff s parameters U r legs = calculate (default ∅ parameters) U r.
Proof.
  intros H.
  repeat (apply elem_of_cons in H as [-> | H]);
    [ eexists; split; [apply elem_of_map_to_list | intros; reflexivity]; reflexivity ..
    | by apply elem_of_nil in H ].
Qed.

Lemma float_param_parameter_float
  (parameters : gmap string pyval) (key : string) (dflt x : float) :
  float_param parameters key (PFloat dflt) = Ok x -> parameter parameters key dflt x.
Proof.
  unfold float_param, get_default, parameter.
  destruct (parameters !! key) as [v |]; cbn; [auto | congruence].
Qed.

Lemma float_param_parameter_int
  (parameters : gmap string pyval) (key : string) (n : Z) (dflt x : float) :
  float_of_int n = Ok dflt ->
  float_param parameters key (PInt n) = Ok x -> parameter parameters key dflt x.
Proof.
  unfold float_param, get_default, parameter. intros Hn.
  destruct (parameters !! key) as [v |]; cbn; [auto | congruence].
Qed.

(** Steps through the reads of a calculator that returned a curve. *)
Ltac succeeded_reads :=
  cbv zeta;
  repeat match goal with
    | |- context [bind (float_param ?p ?k ?d) ?f] =>
        let E := fresh "E" in
        destruct (float_param p k d) as [? | ?] eqn:E; cbn [bind];
        [| intros; discriminate]
    end;
  rewrite default_grid; cbn [bind].

Ltac read_parameter :=
  first [ eapply float_param_parameter_float; eassumption
        | eapply float_param_parameter_int; cycle 1; [eassumption | reflexivity] ].

Lemma fixed_strategy_shape (s : string) (calculate : calculator)
  (parameters : gmap string pyval) (U r : float) (pts : list PayoffDataPoint) :
  (s, calculate) ∈ map_to_list strategy_calculators ->
  calculate parameters U r = Ok pts ->
  exists f, strategy_formula parameters U s f /\
            pts = map (data_point f) (default_prices U r).
Proof.
  intros H. apply elem_of_map_to_list, elem_of_list_to_map_2 in H.
  repeat (apply elem_of_cons in H as [[= -> ->] | H]);
    [ unfold calculate_covered_call | unfold calculate_bull_call_spread
    | unfold calculate_iron_condor | unfold calculate_long_straddle
    | unfold calculate_protective_put | unfold calculate_butterfly_spread
    | by apply elem_of_nil in H ];
    succeeded_reads; intros E';
    match type of E' with
    | Ok (map (data_point ?g) _) = _ =>
        exists g; split; [constructor; read_parameter | congruence]
    end.
Qed.

(** C8. A curve returned for one of the six fixed strategies has exactly 50
    points, and each point holds the grid price and the strategy's raw P&L
    at that price for the parameters supplied, each rounded by round(x, 2)
    on its own: each field is a number of two decimal places no further
    than half a hundredth from the raw value. *)
Theorem fixed_strategy_output
  (s : string) (parameters : option (gmap string pyval)) (U r : float)
  (legs : option (list (gmap string pyval))) (pts : list PayoffDataPoint) :
  s ∈ fixed_strategies ->
  calculate_payoff s parameters U r legs = Ok pts ->
  length pts = 50%nat /\
  exists grid rawPnl,
    calculate_price_range U r default_num_points = Ok grid /\
    strategy_formula (default ∅ parameters) U s rawPnl /\
    Forall2 (fun rawPrice pt =>
               price pt = round2 rawPrice /\
               pnl pt = round2 (rawPnl rawPrice) /\
               rounded_to_2_places rawPrice (price pt) /\
               rounded_to_2_places (rawPnl rawPrice) (pnl pt))
      grid pts.
Proof.
  intros Hs Hrun.
  destruct (payoff_fixed s Hs) as (calculate & Hin & Hcall).
  rewrite Hcall in Hrun.
  destruct (fixed_strategy_shape _ _ _ _ _ _ Hin Hrun) as (f & Hf & ->).
  split.
  - rewrite length_map. apply default_prices_length.
  - eexists. exists f. split; [apply default_grid|]. split; [exact Hf|].
    apply Forall2_map_diag. intros p. unfold data_point. cbn [price pnl].
    repeat apply conj; first [reflexivity | apply round2_spec].
Qed.

Lemma fixed_strategy_output_witness :
  length covered_call_scenario_curve = 50%nat /\
  exists grid rawPnl,
    calculate_price_range 18000 30 default_num_points = Ok grid /\
    strategy_formula (default ∅ (Some covered_call_scenario)) 18000 "covered-call"
      rawPnl /\
    Forall2 (fun rawPrice pt =>
               price pt = round2 rawPrice /\
               pnl pt = round2 (rawPnl rawPrice) /\
               rounded_to_2_places rawPrice (price pt) /\
               rounded_to_2_places (rawPnl rawPrice) (pnl pt))
      grid covered_call_scenario_curve.
Proof.
  apply (fixed_strategy_output "covered-call" (Some covered_call_scenario) 18000 30 None).
  - apply list_elem_of_here.
  - vm_compute. reflexivity.
Defined.

(** ** Malformed parameters *)

Lemma py_float_rejected (v : pyval) :
  if rejected v then py_float v = Raise (rejection v) else exists x, py_float v = Ok x.
Proof.
  unfold rejected. destruct v as [n | x | s]; cbn.
  - unfold float_of_int. destruct (Z.abs n <? int_float_bound)%Z; eauto.
  - eauto.
  - destruct (FloatLiteral.parse s); eauto.
Qed.

Lemma float_param_read (parameters : gmap string pyval) (key : string) (dflt : pyval) :
  rejected dflt = false ->
  match parameters !! key with
  | Some v =>
      if rejected v then float_param parameters key dflt = Raise (rejection v)
      else exists x, float_param parameters key dflt = Ok x
  | None => exists x, float_param parameters key dflt = Ok x
  end.
Proof.
  intros Hd. unfold float_param, get_default.
  destruct (parameters !! key) as [v |]; cbn.
  - apply py_float_rejected.
  - pose proof (py_float_rejected dflt) as H. rewrite Hd in H. exact H.
Qed.

(** Steps through the reads of a calculator, following [first_bad]. *)
Ltac read_in_order :=
  cbv zeta; cbn [first_bad];
  repeat match goal with
    | |- context [bind (float_param ?p ?k ?d) ?f] =>
        let H := fresh "H" in
        pose proof (float_param_read p k d eq_refl) as H;
        destruct (p !! k) as [? | ];
        [ match type of H with
          | if rejected ?v then _ else _ =>
              destruct (rejected v); [ rewrite H; reflexivity | ]
          end
        | ];
        destruct H as [? ->]; cbn [bind]
    end;
  rewrite default_grid; cbn [bind]; eexists; reflexivity.

Lemma fixed_strategy_first_bad (s : string) (calculate : calculator)
  (parameters : gmap string pyval) (U r : float) :
  (s, calculate) ∈ map_to_list strategy_calculators ->
  match first_bad parameters (recognized_keys s) with
  | Some v => calculate parameters U r = Raise (rejection v)
  | None => exists pts, calculate parameters U r = Ok pts
  end.
Proof.
  intros H. apply elem_of_map_to_list, elem_of_list_to_map_2 in H.
  repeat (apply elem_of_cons in H as [[= -> ->] | H]);
    [ unfold calculate_covered_call | unfold calculate_bull_call_spread
    | unfold calculate_iron_condor | unfold calculate_long_straddle
    | unfold calculate_protective_put | unfold calculate_butterfly_spread
    | by apply elem_of_nil in H ];
    match goal with
    | |- context [recognized_keys ?s] =>
        let keys := eval vm_compute in (recognized_keys s) in
        change (recognized_keys s) with keys
    end;
    read_in_order.
Qed.

Lemma first_bad_rejected (d : gmap string pyval) (keys : list string) (v : pyval) :
  first_bad d keys = Some v -> rejected v = true.
Proof.
  induction keys as [| key keys IH]; cbn; [discriminate|].
  destruct (d !! key) as [w |]; [| exact IH].
  destruct (rejected w) eqn:E; [| exact IH]. congruence.
Qed.

(** C9 as stated fails: the exception quotes the rejected value and is the
    same whichever field held it; the field's name is not in its message. *)
Lemma malformed_parameter_names_value :
  let under_premium : gmap string pyval := {[ "premium" := PStr "abc" ]} in
  let under_callStrike : gmap string pyval := {[ "callStrike" := PStr "abc" ]} in
  let msg := "could not convert string to float: 'abc'" in
  calculate_payoff "covered-call" (Some under_premium) 18000 30 None
  = Raise (ValueError msg) /\
  calculate_payoff "covered-call" (Some under_callStrike) 18000 30 None
  = Raise (ValueError msg) /\
  names_field msg "premium" = false /\
  names_field msg "callStrike" = false.
Proof. repeat split; vm_compute; reflexivity. Qed.

(** C9 (amended). For a fixed strategy, if a recognized key holds a value
    that float() rejects, the calculation raises the exception of float()
    for the first such value in reading order and no curve is returned: for
    a string the ValueError whose message quotes that value and not the
    field, for an int beyond the range of a float the OverflowError;
    otherwise a curve is returned. *)
Theorem malformed_parameter
  (s : string) (parameters : gmap string pyval) (U r : float)
  (legs : option (list (gmap string pyval))) :
  s ∈ fixed_strategies ->
  match first_bad parameters (recognized_keys s) with
  | Some (PStr v) =>
      calculate_payoff s (Some parameters) U r legs
      = Raise (ValueError ("could not convert string to float: " +:+ Repr.repr v))
  | Some (PInt n) =>
      calculate_payoff s (Some parameters) U r legs
      = Raise (OverflowError "int too large to convert to float")
  | Some (PFloat x) => False
  | None => exists pts, calculate_payoff s (Some parameters) U r legs = Ok pts
  end.
Proof.
  intros Hs. destruct (payoff_fixed s Hs) as (calculate & Hin & Hcall).
  rewrite Hcall. cbn [default].
  pose proof (fixed_strategy_first_bad _ _ parameters U r Hin) as H.
  destruct (first_bad parameters (recognized_keys s)) as [[n | x | v] |] eqn:E;
    try exact H.
  apply first_bad_rejected in E. discriminate E.
Qed.

Lemma malformed_parameter_witness :
  calculate_payoff "covered-call" (Some {[ "premium" := PStr "abc" ]}) 18000 30 None
  = Raise (ValueError ("could not convert string to float: " +:+ Repr.repr "abc")).
Proof.
  exact (malformed_parameter "covered-call" {[ "premium" := PStr "abc" ]} 18000 30 None
           (list_elem_of_here _ _)).
Defined.

(** ** The case analysis on a leg *)







Ltac key_listed := repeat first [ apply list_elem_of_here | apply list_elem_of_further ].









(** ** The scenarios of the specification, evaluated *)

(** long-straddle with strike 18000, premiums 300 and 300, lot size 50, at
    price 18000: (-300 + -300) * 50. *)
Example long_straddle_at_strike :
  long_straddle_pnl 18000 300 300 50 18000 = -30000.
Proof. reflexivity. Qed.

(** The first point of the documented request: price 12600, P&L -260000. *)
Example covered_call_first_point :
  exists pt, head covered_call_scenario_curve = Some pt /\
             price pt = 12600 /\ pnl pt = -260000.
Proof. eexists. split; [reflexivity|]. split; reflexivity. Qed.

(** * Further properties of the payoff engine *)

(** ** What the fixed strategies read *)

(** A calculator sees its dictionary only through the reads of its keys. *)
Lemma fixed_strategy_reads (s : string) (calculate : calculator)
  (m1 m2 : gmap string pyval) (U r : float) :
  (s, calculate) ∈ map_to_list strategy_calculators ->
  (forall key dflt, key ∈ recognized_keys s ->
                    float_param m1 key dflt = float_param m2 key dflt) ->
  calculate m1 U r = calculate m2 U r.
Proof.
  intros H. apply elem_of_map_to_list, elem_of_list_to_map_2 in H.
  repeat (apply elem_of_cons in H as [[= -> ->] | H]);
    [ unfold calculate_covered_call | unfold calculate_bull_call_spread
    | unfold calculate_iron_condor | unfold calculate_long_straddle
    | unfold calculate_protective_put | unfold calculate_butterfly_spread
    | by apply elem_of_nil in H ];
    match goal with
    | |- context [recognized_keys ?s] =>
        let keys := eval vm_compute in (recognized_keys s) in
        change (recognized_keys s) with keys
    end;
    intros E; cbv zeta;
    repeat match goal with
      | |- bind (float_param m1 ?k ?d) _ = bind (float_param m2 ?k ?d) _ =>
          rewrite (E k d) by key_listed;
          destruct (float_param m2 k d); cbn [bind]; [| reflexivity]
      end;
    reflexivity.
Qed.

Lemma float_param_lookup (m1 m2 : gmap string pyval) (key : string) (dflt : pyval) :
  m1 !! key = m2 !! key -> float_param m1 key dflt = float_param m2 key dflt.
Proof. intros E. unfold float_param, get_default. rewrite E. reflexivity. Qed.

(** X13. A fixed strategy reads its recognized keys and nothing else: two
    parameter dictionaries that agree on those keys give the same result,
    curve or error, whatever else they hold and whatever legs are passed
    along; in particular an unrecognized key is ignored. *)
Theorem fixed_strategy_reads_recognized_keys
  (s : string) (m1 m2 : gmap string pyval) (U r : float)
  (legs1 legs2 : option (list (gmap string pyval))) :
  s ∈ fixed_strategies ->
  (forall key, key ∈ recognized_keys s -> m1 !! key = m2 !! key) ->
  calculate_payoff s (Some m1) U r legs1 = calculate_payoff s (Some m2) U r legs2.
Proof.
  intros Hs Hagree. destruct (payoff_fixed s Hs) as (calculate & Hin & Hcall).
  rewrite !Hcall. cbn [default].
  apply (fixed_strategy_reads s calculate m1 m2 U r Hin).
  intros key dflt Hkey. apply float_param_lookup, Hagree, Hkey.
Qed.

Lemma fixed_strategy_reads_recognized_keys_witness :
  calculate_payoff "covered-call"
    (Some (<["comment" := PStr "not a number"]> covered_call_scenario)) 18000 30 None
  = calculate_payoff "covered-call" (Some covered_call_scenario) 18000 30 (Some [odd_leg]).
Proof.
  apply (fixed_strategy_reads_recognized_keys "covered-call").
  - apply list_elem_of_here.
  - intros key Hkey. apply lookup_insert_ne. intros <-.
    vm_compute in Hkey. by repeat (apply elem_of_cons in Hkey as [[=] | Hkey]);
      apply elem_of_nil in Hkey.
Defined.

Lemma float_param_numeric_string
  (m : gmap string pyval) (k key s : string) (x : float) (dflt : pyval) :
  py_float (PStr s) = Ok x ->
  float_param (<[k := PStr s]> m) key dflt = float_param (<[k := PFloat x]> m) key dflt.
Proof.
  intros Hs. unfold float_param, get_default.
  destruct (decide (k = key)) as [-> | Hne].
  - rewrite !lookup_insert_eq. cbn [default]. exact Hs.
  - rewrite !lookup_insert_ne by exact Hne. reflexivity.
Qed.

(** X14. A number may be given as a string: when float() accepts the string
    s with value x, a fixed strategy returns the same result for a parameter
    holding s as for one holding x. *)
Theorem numeric_string_parameter
  (sid : string) (m : gmap string pyval) (k s : string) (x U r : float)
  (legs : option (list (gmap string pyval))) :
  sid ∈ fixed_strategies ->
  py_float (PStr s) = Ok x ->
  calculate_payoff sid (Some (<[k := PStr s]> m)) U r legs
  = calculate_payoff sid (Some (<[k := PFloat x]> m)) U r legs.
Proof.
  intros Hs Hx. destruct (payoff_fixed sid Hs) as (calculate & Hin & Hcall).
  rewrite !Hcall. cbn [default].
  apply (fixed_strategy_reads sid calculate _ _ U r Hin).
  intros key dflt _. apply float_param_numeric_string, Hx.
Qed.

Lemma numeric_string_parameter_witness :
  calculate_payoff "iron-condor" (Some (<["netPremium" := PStr " 2_50 "]> ∅))
    18000 30 None
  = calculate_payoff "iron-condor" (Some (<["netPremium" := PFloat 250]> ∅))
      18000 30 None.
Proof.
  apply (numeric_string_parameter "iron-condor" ∅ "netPremium" " 2_50 ").
  - apply list_elem_of_further, list_elem_of_further, list_elem_of_here.
  - vm_compute. reflexivity.
Defined.

(** ** What the custom-leg evaluator reads *)

Lemma custom_total_pnl_ext (U p : float) (legs1 legs2 : list (gmap string pyval)) :
  Forall2 (fun l1 l2 => leg_pnl U p l1 = leg_pnl U p l2) legs1 legs2 ->
  custom_total_pnl U legs1 p = custom_total_pnl U legs2 p.
Proof.
  unfold custom_total_pnl. generalize 0.
  intros acc H. revert acc.
  induction H as [| l1 l2 legs1 legs2 E _ IH]; intros acc; cbn [foldM]; [reflexivity|].
  rewrite E. destruct (leg_pnl U p l2); cbn [bind]; [apply IH | reflexivity].
Qed.

Lemma custom_strategy_ext (U r : float) (legs1 legs2 : list (gmap string pyval)) :
  (forall p, Forall2 (fun l1 l2 => leg_pnl U p l1 = leg_pnl U p l2) legs1 legs2) ->
  calculate_custom_strategy legs1 U r = calculate_custom_strategy legs2 U r.
Proof.
  intros H. unfold calculate_custom_strategy.
  destruct (calculate_price_range U r default_num_points); [| reflexivity].
  cbn [bind]. apply forM_ext. intros p.
  rewrite (custom_total_pnl_ext U p legs1 legs2 (H p)). reflexivity.
Qed.

Lemma Forall2_replace {A : Type} (R : A -> A -> Prop) (before after : list A) (x y : A) :
  (forall a, R a a) -> R x y -> Forall2 R (before ++ x :: after) (before ++ y :: after).
Proof.
  intros Hrefl Hxy. apply Forall2_app.
  - apply Forall_Forall2_diag, Forall_forall. intros a _. apply Hrefl.
  - constructor; [exact Hxy|].
    apply Forall_Forall2_diag, Forall_forall. intros a _. apply Hrefl.
Qed.

Lemma get_is_lookup (l1 l2 : gmap string pyval) (key s : string) :
  l1 !! key = l2 !! key -> get_is l1 key s = get_is l2 key s.
Proof. intros E. unfold get_is. rewrite E. reflexivity. Qed.

Lemma get_default_lookup (l1 l2 : gmap string pyval) (key : string) (dflt : pyval) :
  l1 !! key = l2 !! key -> get_default l1 key dflt = get_default l2 key dflt.
Proof. intros E. unfold get_default. rewrite E. reflexivity. Qed.

Lemma leg_pnl_reads (U p : float) (l1 l2 : gmap string pyval) :
  (forall key, key ∈ leg_keys l1 -> l1 !! key = l2 !! key) ->
  leg_pnl U p l1 = leg_pnl U p l2.
Proof.
  intros H. unfold leg_keys, leg_float_keys in H.
  assert (Ht : l1 !! "type" = l2 !! "type") by (apply H; key_listed).
  assert (Ha : l1 !! "action" = l2 !! "action") by (apply H; key_listed).
  unfold leg_pnl.
  rewrite <- !(get_is_lookup l1 l2 "type" _ Ht), <- !(get_is_lookup l1 l2 "action" _ Ha).
  destruct (get_is l1 "type" "FUT").
  - rewrite <- (get_default_lookup l1 l2 "lotSize") by (apply H; key_listed).
    rewrite <- (get_default_lookup l1 l2 "entryPrice") by (apply H; key_listed).
    reflexivity.
  - rewrite <- (get_default_lookup l1 l2 "lotSize") by (apply H; key_listed).
    rewrite <- (get_default_lookup l1 l2 "strike") by (apply H; key_listed).
    rewrite <- (get_default_lookup l1 l2 "premium") by (apply H; key_listed).
    reflexivity.
Qed.

(** X15. The evaluator sees a leg only through type, action, lotSize and,
    for a future, entryPrice, otherwise strike and premium: replacing a leg
    by one that agrees on these keys leaves the result, curve or error,
    unchanged. A strike or premium on a future, an entryPrice on an option
    and any other key are never read, not even when they hold text. *)
Theorem leg_reads_its_keys
  (U r : float) (l1 l2 : gmap string pyval) (before after : list (gmap string pyval)) :
  (forall key, key ∈ leg_keys l1 -> l1 !! key = l2 !! key) ->
  calculate_custom_strategy (before ++ l1 :: after) U r
  = calculate_custom_strategy (before ++ l2 :: after) U r.
Proof.
  intros H. apply custom_strategy_ext. intros p.
  apply Forall2_replace; [reflexivity|]. apply leg_pnl_reads, H.
Qed.

Lemma leg_reads_its_keys_witness :
  calculate_custom_strategy
    ([] ++ <["entryPrice" := PStr "n/a"]> odd_leg :: map leg_dict sample_legs) 18000 30
  = calculate_custom_strategy ([] ++ odd_leg :: map leg_dict sample_legs) 18000 30.
Proof.
  apply (leg_reads_its_keys 18000 30 (<["entryPrice" := PStr "n/a"]> odd_leg) odd_leg).
  intros key Hkey. apply lookup_insert_ne. intros <-.
  vm_compute in Hkey.
  by repeat (apply elem_of_cons in Hkey as [[=] | Hkey]); apply elem_of_nil in Hkey.
Defined.

(** ** A malformed leg *)

Lemma py_float_read (leg : gmap string pyval) (key : string) (dflt : pyval) :
  rejected dflt = false ->
  match leg !! key with
  | Some v =>
      if rejected v then py_float (get_default leg key dflt) = Raise (rejection v)
      else exists x, py_float (get_default leg key dflt) = Ok x
  | None => exists x, py_float (get_default leg key dflt) = Ok x
  end.
Proof. apply float_param_read. Qed.

Ltac read_leg_key H :=
  match type of H with
  | match ?leg !! ?key with _ => _ end =>
      destruct (leg !! key) as [? |];
      [ match type of H with
        | if rejected ?v then _ else _ =>
            destruct (rejected v); [ rewrite H; reflexivity | ]
        end
      | ];
      destruct H as [? ->]; cbn [bind]
  end.

Lemma leg_pnl_first_bad (U p : float) (leg : gmap string pyval) :
  match first_bad leg (leg_float_keys leg) with
  | Some v => leg_pnl U p leg = Raise (rejection v)
  | None => exists x, leg_pnl U p leg = Ok x
  end.
Proof.
  unfold leg_pnl, leg_float_keys.
  pose proof (py_float_read leg "lotSize" (PInt 0) eq_refl) as Hl.
  pose proof (py_float_read leg "entryPrice" (PFloat U) eq_refl) as He.
  pose proof (py_float_read leg "strike" (PFloat U) eq_refl) as Hs.
  pose proof (py_float_read leg "premium" (PInt 0) eq_refl) as Hp.
  destruct (get_is leg "type" "FUT"); cbn [first_bad].
  - read_leg_key Hl; read_leg_key He;
      destruct (get_is leg "action" "BUY"); eexists; reflexivity.
  - read_leg_key Hl; read_leg_key Hs; read_leg_key Hp;
      destruct (get_is leg "action" "BUY"); eexists; reflexivity.
Qed.

Lemma foldM_first_bad (U p acc : float) (legs : list (gmap string pyval)) :
  match legs_first_bad legs with
  | Some v =>
      foldM (fun total_pnl leg => let* x := leg_pnl U p leg in Ok (total_pnl + x)) legs acc
      = Raise (rejection v)
  | None =>
      exists t,
        foldM (fun total_pnl leg => let* x := leg_pnl U p leg in Ok (total_pnl + x)) legs acc
        = Ok t
  end.
Proof.
  revert acc. induction legs as [| leg legs IH]; intros acc; cbn [legs_first_bad foldM].
  - eexists. reflexivity.
  - pose proof (leg_pnl_first_bad U p leg) as H.
    destruct (first_bad leg (leg_float_keys leg)) as [v |].
    + rewrite H. reflexivity.
    + destruct H as [x ->]. cbn [bind]. apply IH.
Qed.

Lemma forM_all_ok {A B : Type} (f : A -> result B) (l : list A) :
  (forall a, exists b, f a = Ok b) ->
  exists ys, forM f l = Ok ys /\ length ys = length l.
Proof.
  intros H. induction l as [| a l (ys & E & Hlen)]; cbn [forM].
  - exists []. split; reflexivity.
  - destruct (H a) as [b ->]. rewrite E. cbn [bind].
    exists (b :: ys). split; [reflexivity|]. cbn. rewrite Hlen. reflexivity.
Qed.

Lemma default_prices_cons (U r : float) :
  exists p0 rest, default_prices U r = p0 :: rest.
Proof. eexists. eexists. unfold default_prices. reflexivity. Qed.

Lemma legs_first_bad_rejected (legs : list (gmap string pyval)) (v : pyval) :
  legs_first_bad legs = Some v -> rejected v = true.
Proof.
  induction legs as [| leg legs IH]; cbn; [discriminate|].
  destruct (first_bad leg (leg_float_keys leg)) as [w |] eqn:E; [| exact IH].
  intros [= <-]. eapply first_bad_rejected, E.
Qed.

Lemma custom_strategy_rejection (legs : list (gmap string pyval)) (U r : float) :
  match legs_first_bad legs with
  | Some v => calculate_custom_strategy legs U r = Raise (rejection v)
  | None =>
      exists pts, calculate_custom_strategy legs U r = Ok pts /\ length pts = 50%nat
  end.
Proof.
  unfold calculate_custom_strategy. rewrite default_grid. cbn [bind].
  unfold custom_total_pnl.
  destruct (legs_first_bad legs) as [v |] eqn:Hbad.
  - destruct (default_prices_cons U r) as (p0 & rest & ->). cbn [forM].
    pose proof (foldM_first_bad U p0 0 legs) as H. rewrite Hbad in H.
    rewrite H. reflexivity.
  - rewrite <- (default_prices_length U r). apply forM_all_ok. intros p.
    pose proof (foldM_first_bad U p 0 legs) as H. rewrite Hbad in H.
    destruct H as [t ->]. eexists. reflexivity.
Qed.

(** X17. One malformed leg loses the whole curve: reading the legs in list
    order, each leg's lotSize first and then entryPrice (future) or strike
    and premium (other types), the first value float() rejects is raised as
    float()'s exception and nothing is returned: for a string the ValueError
    that quotes it, for an int beyond the range of a float the
    OverflowError; when there is none the evaluator returns 50 points. *)
Theorem custom_strategy_first_bad (legs : list (gmap string pyval)) (U r : float) :
  match legs_first_bad legs with
  | Some (PStr v) =>
      calculate_custom_strategy legs U r
      = Raise (ValueError ("could not convert string to float: " +:+ Repr.repr v))
  | Some (PInt n) =>
      calculate_custom_strategy legs U r
      = Raise (OverflowError "int too large to convert to float")
  | Some (PFloat x) => False
  | None =>
      exists pts, calculate_custom_strategy legs U r = Ok pts /\ length pts = 50%nat
  end.
Proof.
  pose proof (custom_strategy_rejection legs U r) as H.
  destruct (legs_first_bad legs) as [[n | x | v] |] eqn:E; try exact H.
  apply legs_first_bad_rejected in E. discriminate E.
Qed.

(** ** The price column of a curve *)





(** ** The endpoint *)

Lemma payoff_raises
  (s : string) (parameters : option (gmap string pyval)) (U r : float)
  (legs : option (list (gmap string pyval))) :
  raises_only (fun e => (exists msg, e = ValueError msg) \/ e = int_too_large)
    (calculate_payoff s parameters U r legs).
Proof.
  destruct (known_strategy s) eqn:K.
  - pose proof (known_strategy_raises s parameters U r legs K) as R.
    destruct (calculate_payoff s parameters U r legs) as [pts | e]; [exact I|].
    destruct R as [[v ->] | ->]; [left; eexists; reflexivity | right; reflexivity].
  - apply known_strategy_false in K as [E L].
    unfold calculate_payoff. rewrite E, L. left. eexists. reflexivity.
Qed.

(** X20. The endpoint answers with the service's curve or, when the service
    raises ValueError (an unknown strategy type, a string float() rejects),
    with HTTP 400 carrying the exception's message as detail.  The one other
    exception the service raises is the OverflowError of float() on an int
    beyond the range of a float, which the endpoint answers with HTTP 500;
    no division by zero reaches it. *)
Theorem payoff_endpoint_status (request : PayoffRouter.PayoffRequest) :
  match PayoffRouter.calculate_payoff request with
  | PayoffRouter.Returned payoff_data =>
      calculate_payoff (PayoffRouter.strategy_type request)
        (PayoffRouter.parameters request) (PayoffRouter.underlying_price request)
        (PayoffRouter.price_range_percent request) (PayoffRouter.custom_legs request)
      = Ok payoff_data
  | PayoffRouter.HTTPException status_code detail =>
      (status_code = 400%Z /\
       calculate_payoff (PayoffRouter.strategy_type request)
         (PayoffRouter.parameters request) (PayoffRouter.underlying_price request)
         (PayoffRouter.price_range_percent request) (PayoffRouter.custom_legs request)
       = Raise (ValueError detail)) \/
      (status_code = 500%Z /\
       detail = "Internal server error: int too large to convert to float" /\
       calculate_payoff (PayoffRouter.strategy_type request)
         (PayoffRouter.parameters request) (PayoffRouter.underlying_price request)
         (PayoffRouter.price_range_percent request) (PayoffRouter.custom_legs request)
       = Raise (OverflowError "int too large to convert to float"))
  end.
Proof.
  unfold PayoffRouter.calculate_payoff.
  pose proof (payoff_raises (PayoffRouter.strategy_type request)
                (PayoffRouter.parameters request) (PayoffRouter.underlying_price request)
                (PayoffRouter.price_range_percent request)
                (PayoffRouter.custom_legs request)) as R.
  destruct (calculate_payoff _ _ _ _ _) as [pts | e]; [reflexivity|].
  destruct R as [[msg ->] | ->].
  - left. split; reflexivity.
  - right. repeat split; reflexivity.
Qed.

(** Both answers occur: a premium that is no number is answered with 400, a
    premium that is an int of 401 digits with 500. *)
Example payoff_endpoint_answers :
  let request (premium : pyval) :=
    PayoffRouter.mkRequest "covered-call" "2025-12-26" "2026-01-26"
      (Some {[ "premium" := premium ]}) 18000 30 None in
  PayoffRouter.calculate_payoff (request (PStr "abc"))
  = PayoffRouter.HTTPException 400 "could not convert string to float: 'abc'" /\
  PayoffRouter.calculate_payoff (request (PInt (10 ^ 400)))
  = PayoffRouter.HTTPException 500
      "Internal server error: int too large to convert to float".
Proof. split; vm_compute; reflexivity. Qed.


